(** * The shell command executer of the agent (package [executers])

    A shallow embedding of [agent/executers/executers.go]: the two entry
    points [Execute] and [StartExe], the process executor [ExecuteCommand] /
    [StartCommand], [prepareEnvironment] and [CreateScriptFile].

    The Go code talks to the operating system (files, processes, timers) and
    to two goroutines that race with the main control flow.  The embedding
    keeps the sequential control flow of each function as written and takes
    everything the operating system or the race decides as an explicit
    input: the [Host] record (file creation rights, environment, identity
    lookups) and the [Run] record (what [command.Start], [command.Wait],
    [timer.Stop] and the shared [timeoutSignal] report).  Side effects go
    through an explicit [World]: the file system, the heap of
    [bytes.Buffer] objects, open file handles, started processes, started
    goroutines and the log. *)

From Stdlib Require Import ZArith Bool List Ascii.
From stdpp Require Import base option list strings gmap fin_maps.

Open Scope Z_scope.
Open Scope string_scope.

(** ** Values *)

(** Go's [error] values, as far as the executer tells them apart. *)
Inductive error :=
| PathError (op : string) (path : string)  (* *os.PathError of os.OpenFile, os.Open, os.Create *)
| StartError (msg : string)                (* what command.Start returns on failure *)
| ExitError (sys : option Z)               (* *exec.ExitError; [Some s] when Sys() is a
                                              syscall.WaitStatus with ExitStatus() = s *)
| OtherError (msg : string).               (* any other error, e.g. an I/O error of Wait *)

(** An [io.Writer] interface value.  A pointer is an [option]: [None] is the
    nil pointer.  A file handle is named by the path it was opened at, a
    buffer by its address on the heap. *)
Inductive Writer :=
| NilWriter
| FileWriter (f : option string)
| BufferWriter (b : option nat).

(** An [io.Reader] interface value. *)
Inductive Reader :=
| NilReader
| FileReader (f : option string)
| BytesReader (data : string).

(** [exec.Cmd], the fields the executer sets. *)
Record Cmd := mkCmd {
  Path : string;
  Args : list string;
  Dir : string;
  Stdout : Writer;
  Stderr : Writer;
  Env : list string
}.

(** [os.Process] *)
Record Process := mkProcess { Pid : Z }.

(** The goroutines the executer starts with [go]. *)
Inductive Task :=
| killProcessOnCancel (command : Cmd)
| killProcessOnTimeout (command : Cmd) (duration : Z).

(** Calls on the [log.T] interface, in the order they were made. *)
Inductive Value :=
| VStr (s : string)
| VStrs (l : list string)
| VInt (z : Z)
| VErr (e : error).

Inductive LogCall :=
| Debug (args : list Value)
| Debugf (format : string) (args : list Value)
| Infof (format : string) (args : list Value)
| Error (args : list Value)
| Errorf (format : string) (args : list Value).

(** ** The world *)

Record FileNode := mkFileNode {
  data : string;
  readable : bool;
  writable : bool
}.

Record World := mkWorld {
  files : gmap string FileNode;   (* the file system: absent key, no such file *)
  buffers : gmap nat string;      (* the heap of bytes.Buffer objects *)
  handles : list string;          (* open *os.File handles of the agent *)
  started : list Cmd;             (* commands whose process was created, latest first *)
  goroutines : list Task;         (* goroutines started, latest first *)
  logged : list LogCall           (* log calls, latest first *)
}.

Definition set_files (f : gmap string FileNode → gmap string FileNode) (w : World) : World :=
  mkWorld (f (files w)) (buffers w) (handles w) (started w) (goroutines w) (logged w).
Definition set_buffers (f : gmap nat string → gmap nat string) (w : World) : World :=
  mkWorld (files w) (f (buffers w)) (handles w) (started w) (goroutines w) (logged w).
Definition set_handles (f : list string → list string) (w : World) : World :=
  mkWorld (files w) (buffers w) (f (handles w)) (started w) (goroutines w) (logged w).
Definition set_started (f : list Cmd → list Cmd) (w : World) : World :=
  mkWorld (files w) (buffers w) (handles w) (f (started w)) (goroutines w) (logged w).
Definition set_goroutines (f : list Task → list Task) (w : World) : World :=
  mkWorld (files w) (buffers w) (handles w) (started w) (f (goroutines w)) (logged w).
Definition set_logged (f : list LogCall → list LogCall) (w : World) : World :=
  mkWorld (files w) (buffers w) (handles w) (started w) (goroutines w) (f (logged w)).

(** What the host decides. *)
Record Host := mkHost {
  creatable : string → bool;            (* may a file be created at this path *)
  room : nat;                           (* bytes the storage device still takes *)
  Environ : list string;                (* os.Environ() *)
  InstanceID : string * option error;   (* instance.InstanceID() *)
  Region : string * option error        (* instance.Region() *)
}.

(** What one child process and the race around it decide. *)
Record Run := mkRun {
  startResult : option error;     (* command.Start() *)
  childPid : Z;                   (* command.Process.Pid after a successful start *)
  childStdout : string;           (* bytes the child wrote to its standard output *)
  childStderr : string;           (* bytes the child wrote to its standard error *)
  childEffect : gmap string FileNode → gmap string FileNode;
                                  (* whatever else the child did to the file system *)
  waitResult : option error;      (* command.Wait() *)
  timerStop : bool;               (* timer.Stop() after the wait *)
  execInterruptedOnWindows : bool (* the timeoutSignal field, read after the wait *)
}.

(** [task.CancelFlag], as the main control flow observes it: [Canceled()]
    polled after the wait returned. *)
Record CancelFlag := mkCancelFlag { Canceled : bool }.

(** ** The effect monad: state passing over [World], with Go's panic *)

Inductive Result (A : Type) :=
| Done (a : A)
| Panic (msg : string).
Arguments Done {A} a.
Arguments Panic {A} msg.

Definition Go (A : Type) : Type := World → Result A * World.

#[global] Instance Go_ret : MRet Go := λ A a w, (Done a, w).
#[global] Instance Go_bind : MBind Go := λ A B f m w,
  match m w with
  | (Done a, w') => f a w'
  | (Panic msg, w') => (Panic msg, w')
  end.

Definition panic {A} (msg : string) : Go A := λ w, (Panic msg, w).
Definition modify (f : World → World) : Go unit := λ w, (Done tt, f w).
Definition gets {A} (f : World → A) : Go A := λ w, (Done (f w), w).

(** [defer cleanup] around [body]: the cleanup runs when the function leaves,
    also when it leaves by a panic. *)
Definition defer {A} (cleanup : Go unit) (body : Go A) : Go A := λ w,
  match body w with
  | (r, w') =>
      match cleanup w' with
      | (Done _, w'') => (r, w'')
      | (Panic msg, w'') => (Panic msg, w'')
      end
  end.

Definition log (c : LogCall) : Go unit := modify (set_logged (cons c)).
Definition go (t : Task) : Go unit := modify (set_goroutines (cons t)).

(** ** The operating system, as the executer uses it *)

(** Looking a path up.  The empty path names no file. *)
Definition node (path : string) (fs : gmap string FileNode) : option FileNode :=
  if decide (path = "") then None else fs !! path.

Definition newFile : FileNode := mkFileNode "" true true.

(** Modelled from the spec: the flag and permission constants of
    [os.OpenFile(path, appconfig.FileFlagsCreateOrAppend, appconfig.ReadWriteAccess)]
    are declared in package [appconfig], outside the files at hand; the spec
    gives them as "opens/creates that file in append mode with fixed
    read/write permissions".  An existing file is opened for appending and
    keeps its content, a missing one is created empty, readable and
    writable. *)
Definition OpenFile (h : Host) (path : string) : Go (option string * option error) := λ w,
  match node path (files w) with
  | Some n =>
      if writable n
      then (Done (Some path, None), set_handles (cons path) w)
      else (Done (None, Some (PathError "open" path)), w)
  | None =>
      if creatable h path && negb (bool_decide (path = ""))
      then (Done (Some path, None),
            set_handles (cons path) (set_files (insert path newFile) w))
      else (Done (None, Some (PathError "open" path)), w)
  end.

(** [os.Open(path)]: open for reading. *)
Definition Open (path : string) : Go (option string * option error) := λ w,
  match node path (files w) with
  | Some n =>
      if readable n
      then (Done (Some path, None), set_handles (cons path) w)
      else (Done (None, Some (PathError "open" path)), w)
  | None => (Done (None, Some (PathError "open" path)), w)
  end.

(** [os.Create(path)]: create or truncate. *)
Definition Create (h : Host) (path : string) : Go (option string * option error) := λ w,
  match node path (files w) with
  | Some n =>
      if writable n && readable n
      then (Done (Some path, None),
            set_handles (cons path)
              (set_files (insert path (mkFileNode "" (readable n) (writable n))) w))
      else (Done (None, Some (PathError "open" path)), w)
  | None =>
      if creatable h path && negb (bool_decide (path = ""))
      then (Done (Some path, None),
            set_handles (cons path) (set_files (insert path newFile) w))
      else (Done (None, Some (PathError "open" path)), w)
  end.

Fixpoint remove_first (path : string) (l : list string) : list string :=
  match l with
  | [] => []
  | p :: l' => if decide (p = path) then l' else p :: remove_first path l'
  end.

(** [file.Close()]; on a nil handle it reports an error and does nothing. *)
Definition Close (f : option string) : Go unit :=
  match f with
  | Some path => modify (set_handles (remove_first path))
  | None => mret tt
  end.

Definition append_data (s : string) (n : FileNode) : FileNode :=
  mkFileNode (data n +:+ s) (readable n) (writable n).

(** [file.WriteString(s)]: [room] is the number of bytes the device still
    takes; a short write is an error. *)
Definition WriteString (room : nat) (f : option string) (s : string) : Go (nat * option error) :=
  match f with
  | Some path => λ w,
      if decide (String.length s ≤ room)%nat
      then (Done (String.length s, None), set_files (alter (append_data s) path) w)
      else (Done (room, Some (OtherError "short write")),
            set_files (alter (append_data (String.substring 0 room s)) path) w)
  | None => mret (0%nat, Some (OtherError "invalid argument"))
  end.

(** Modelled from the spec: [fileutil.Exists(path)] is declared in package
    [fileutil], outside the files at hand (the spec lists the file helpers
    as external collaborators and speaks of an "expected output file
    missing").  It is the test that a file is present at the path, as its
    name and the comment at its call sites ("create reader from stdout, if it
    exist") say. *)
Definition fileutil_Exists (path : string) : Go bool :=
  gets (λ w, bool_decide (is_Some (node path (files w)))).

(** [bytes.NewBuffer(nil)]: a fresh, empty buffer. *)
Definition NewBuffer : Go (option nat) := λ w,
  let b := fresh (dom (buffers w)) in
  (Done (Some b), set_buffers (insert b "") w).

(** [buf.Bytes()]: dereferences the receiver. *)
Definition Bytes (buf : option nat) : Go string :=
  match buf with
  | Some b => gets (λ w, default "" (buffers w !! b))
  | None => panic "invalid memory address or nil pointer dereference"
  end.

(** [ioutil.ReadAll(reader)]: what reading a reader to its end yields. *)
Definition ReadAll (reader : Reader) : Go (string * option error) :=
  match reader with
  | BytesReader d => mret (d, None)
  | FileReader (Some path) =>
      gets (λ w, match node path (files w) with
                 | Some n => (data n, None)
                 | None => ("", Some (PathError "read" path))
                 end)
  | FileReader None => mret ("", Some (OtherError "invalid argument"))
  | NilReader => panic "invalid memory address or nil pointer dereference"
  end.

(** [exec.Command(name, arg...)] *)
Definition Command (name : string) (arg : list string) : Cmd :=
  mkCmd name (name :: arg) "" NilWriter NilWriter [].

Definition set_Dir (d : string) (c : Cmd) : Cmd :=
  mkCmd (Path c) (Args c) d (Stdout c) (Stderr c) (Env c).
Definition set_Stdout (o : Writer) (c : Cmd) : Cmd :=
  mkCmd (Path c) (Args c) (Dir c) o (Stderr c) (Env c).
Definition set_Stderr (e : Writer) (c : Cmd) : Cmd :=
  mkCmd (Path c) (Args c) (Dir c) (Stdout c) e (Env c).
Definition set_Env (env : list string) (c : Cmd) : Cmd :=
  mkCmd (Path c) (Args c) (Dir c) (Stdout c) (Stderr c) env.

(** [command.Start()]: on success the process exists, with the command's
    [Stdout] and [Stderr] as its output destinations. *)
Definition Start (r : Run) (command : Cmd) : Go (option error) := λ w,
  match startResult r with
  | Some e => (Done (Some e), w)
  | None => (Done None, set_started (cons command) w)
  end.

(** The child's output arrives at the destination it was started with: a
    file handle appends to its file, a buffer grows; a nil handle is a
    closed descriptor in the child and takes nothing. *)
Definition deliver_files (dst : Writer) (out : string)
    (fs : gmap string FileNode) : gmap string FileNode :=
  match dst with
  | FileWriter (Some path) => alter (append_data out) path fs
  | _ => fs
  end.

Definition deliver_buffers (dst : Writer) (out : string)
    (bs : gmap nat string) : gmap nat string :=
  match dst with
  | BufferWriter (Some b) => alter (λ s, s +:+ out) b bs
  | _ => bs
  end.

Definition deliver (dst : Writer) (out : string) (w : World) : World :=
  set_buffers (deliver_buffers dst out) (set_files (deliver_files dst out) w).

(** [command.Wait()]: by the time it returns, the child has run. *)
Definition Wait (r : Run) (command : Cmd) : Go (option error) := λ w,
  (Done (waitResult r),
   set_files (childEffect r)
     (deliver (Stderr command) (childStderr r)
        (deliver (Stdout command) (childStdout r) w))).

(** [time.Duration(executionTimeout) * time.Second], in 64-bit arithmetic. *)
Definition wrap64 (z : Z) : Z := (z + 2 ^ 63) mod 2 ^ 64 - 2 ^ 63.
Definition Second : Z := 1000000000.
Definition Duration (executionTimeout : Z) : Z := wrap64 (wrap64 executionTimeout * Second).

Definition timer_Stop (r : Run) : Go bool := mret (timerStop r).

(** ** Package [executers] *)

Definition envVarInstanceId : string := "AWS_SSM_INSTANCE_ID".
Definition envVarRegionName : string := "AWS_SSM_REGION_NAME".

(** fmtEnvVariable creates the string to append to the current set of
    environment variables. *)
Definition fmtEnvVariable (name val : string) : string := name +:+ "=" +:+ val.

(** The results of [Execute] and [StartExe], as Go returns them. *)
Definition ExecuteResult : Type := Reader * Reader * Z * list error.
Definition StartResult : Type := option Process * Z * list error.

(** [strings.Join(elems, sep)] *)
Fixpoint Join (elems : list string) (sep : string) : string :=
  match elems with
  | [] => ""
  | e :: rest =>
      match rest with
      | [] => e
      | _ :: _ => e +:+ sep +:+ Join rest sep
      end
  end.

(** The string written ["\n"] in Go: one line feed. *)
Definition newline : string := String "010"%char "".

(** ** Concrete hosts, runs and worlds

    Used to evaluate the executer on explicit inputs. *)

Definition emptyWorld : World := mkWorld ∅ ∅ [] [] [] [].

(** A host on which every file can be created, the instance id is known
    and the region lookup fails. *)
Definition sampleHost : Host :=
  mkHost (λ _, true) 4096 ["PATH=/usr/bin"]
         ("i-0123456789", None) ("", Some (OtherError "region not found")).

(** A host on which no file can be created. *)
Definition readOnlyHost : Host :=
  mkHost (λ _, false) 4096 ["PATH=/usr/bin"]
         ("i-0123456789", None) ("us-east-1", None).

Definition noEffect (fs : gmap string FileNode) : gmap string FileNode := fs.
Definition noHook (command : Cmd) : Cmd := command.

(** The child was killed: wait reports exit status -1. *)
Definition killedRun : Run :=
  mkRun None 4242 "partial" "" noEffect (Some (ExitError (Some (-1)))) true false.

(** The child exited with status 3 on its own. *)
Definition failedRun : Run :=
  mkRun None 4242 "" "boom" noEffect (Some (ExitError (Some 3))) true false.

(** The child exited cleanly although the timer had fired. *)
Definition cleanRun : Run :=
  mkRun None 4242 "ok" "" noEffect None false false.

(** The child removes the log file it was given as standard output. *)
Definition removingRun : Run :=
  mkRun None 4242 "" "" (delete "out.log") None true false.

(** A world in which an earlier run left output in [out.log]. *)
Definition logWorld : World :=
  mkWorld {[ "out.log" := mkFileNode "earlier output" true true ]} ∅ [] [] [] [].

(** The value of [appconfig.CommandStoppedPreemptivelyExitCode] used in the
    concrete runs below. *)
Definition stoppedPreemptively : Z := 137.

(** Copying the child's output failed: wait returns an error that is not
    an exit status, after the timer had fired. *)
Definition copyErrorRun : Run :=
  mkRun None 4242 "" "" noEffect (Some (OtherError "read |0: file already closed"))
        false false.


(** The process could not be created. *)
Definition launchFailure : Run :=
  mkRun (Some (StartError "executable file not found in $PATH")) 0 "" ""
        noEffect None true false.

Section Executers.

(** Declared in other files of the agent: the exit code reserved by
    [appconfig] for a command that was stopped preemptively, and the two
    platform hooks of this package. *)
Variable CommandStoppedPreemptivelyExitCode : Z.
Variable prepareProcess : Cmd → Cmd.
Variable validateEnvironmentVariables : Cmd → Cmd.

Variable host : Host.

(** prepareEnvironment adds ssm agent standard environment variables to
    the command *)
Definition prepareEnvironment (command : Cmd) : Cmd :=
  let env := Environ host in
  let env :=
    match InstanceID host with
    | (instance, None) => (env ++ [fmtEnvVariable envVarInstanceId instance])%list
    | (_, Some _) => env
    end in
  let env :=
    match Region host with
    | (region, None) => (env ++ [fmtEnvVariable envVarRegionName region])%list
    | (_, Some _) => env
    end in
  let command := set_Env env command in
  validateEnvironmentVariables command.

(** ExecuteCommand executes the given commands using the given working
    directory.  Standard output and standard error are sent to the given
    writers. *)
Definition ExecuteCommand (r : Run) (cancelFlag : CancelFlag) (workingDir : string)
    (stdoutWriter stderrWriter : Writer) (executionTimeout : Z)
    (commandName : string) (commandArguments : list string) : Go (Z * option error) :=
  let command := Command commandName commandArguments in
  let command := set_Dir workingDir command in
  let command := set_Stdout stdoutWriter command in
  let command := set_Stderr stderrWriter command in
  let exitCode := 0 in
  let command := prepareProcess command in
  let command := prepareEnvironment command in
  log (Debug []);;
  log (Debugf "Running in directory %v, command: %v %v."
         [VStr workingDir; VStr commandName; VStrs commandArguments]);;
  log (Debug []);;
  err ← Start r command;
  match err with
  | Some e =>
      log (Error [VStr "error occurred starting the command"; VErr e]);;
      let exitCode := 1 in
      mret (exitCode, err)
  | None =>
      go (killProcessOnCancel command);;
      go (killProcessOnTimeout command (Duration executionTimeout));;
      err ← Wait r command;
      stopped ← timer_Stop r;
      let timedOut := negb stopped in
      exitCode ←
        match err with
        | Some e =>
            let exitCode := 1 in
            log (Debugf "command failed to run %v" [VErr e]);;
            match e with
            | ExitError (Some status) =>
                let exitCode := status in
                exitCode ←
                  (if execInterruptedOnWindows r
                   then log (Debug [VStr "command interrupted by cancel or timeout"]);;
                        mret (-1)
                   else mret exitCode);
                if decide (exitCode = -1) then
                  if Canceled cancelFlag then
                    log (Infof "The execution of command was cancelled." []);;
                    mret CommandStoppedPreemptivelyExitCode
                  else if timedOut then
                    log (Infof "The execution of command was timedout." []);;
                    mret CommandStoppedPreemptivelyExitCode
                  else mret exitCode
                else
                  log (Infof "The execution of command returned Exit Status: %d"
                         [VInt exitCode]);;
                  mret exitCode
            | _ => mret exitCode
            end
        | None =>
            (if Canceled cancelFlag
             then log (Errorf "the cancellation failed to stop the process." [])
             else mret tt);;
            (if timedOut
             then log (Errorf "the timeout failed to stop the process." [])
             else mret tt);;
            mret exitCode
        end;
      log (Debug [VStr "Done waiting!"]);;
      mret (exitCode, err)
  end.

(** StartCommand starts the given commands using the given working
    directory.  Standard output and standard error are sent to the given
    writers. *)
Definition StartCommand (r : Run) (cancelFlag : CancelFlag) (workingDir : string)
    (stdoutWriter stderrWriter : Writer)
    (commandName : string) (commandArguments : list string)
    : Go (option Process * Z * option error) :=
  let command := Command commandName commandArguments in
  let command := set_Dir workingDir command in
  let command := set_Stdout stdoutWriter command in
  let command := set_Stderr stderrWriter command in
  let exitCode := 0 in
  let command := prepareProcess command in
  let command := prepareEnvironment command in
  log (Debug []);;
  log (Debugf "Running in directory %v, command: %v %v."
         [VStr workingDir; VStr commandName; VStrs commandArguments]);;
  log (Debug []);;
  err ← Start r command;
  match err with
  | Some e =>
      log (Error [VStr "error occurred starting the command: "; VErr e]);;
      let exitCode := 1 in
      mret (None, exitCode, err)
  | None =>
      let process := Some (mkProcess (childPid r)) in
      go (killProcessOnCancel command);;
      mret (process, exitCode, err)
  end.

(** Go's [errs = append(errs, err)] under [if err != nil]. *)
Definition append_err (errs : list error) (err : option error) : list error :=
  match err with
  | Some e => (errs ++ [e])%list
  | None => errs
  end.

(** Execute executes a list of shell commands in the given working
    directory.  The named results start at their zero values, which is
    what a bare [return] hands back.  The three parts are given in source
    order from the bottom up: [finish] is lines 112-140, [withStderr]
    lines 90-105, the body lines 73-88. *)
Definition Execute (r : Run) (workingDir stdoutFilePath stderrFilePath : string)
    (cancelFlag : CancelFlag) (executionTimeout : Z)
    (commandName : string) (commandArguments : list string) : Go ExecuteResult :=
  let finish (stdoutWriter : Writer) (stdoutBuf : option nat)
             (stderrWriter : Writer) (stderrBuf : option nat) : Go ExecuteResult :=
    let errs : list error := [] in
    '(exitCode, err) ← ExecuteCommand r cancelFlag workingDir stdoutWriter stderrWriter
                         executionTimeout commandName commandArguments;
    let errs := append_err errs err in
    present ← fileutil_Exists stdoutFilePath;
    '(stdout, errs) ←
      (if present : bool then
         '(f, err) ← Open stdoutFilePath;
         mret (FileReader f, append_err errs err)
       else
         b ← Bytes stdoutBuf;
         mret (BytesReader b, errs));
    present ← fileutil_Exists stderrFilePath;
    '(stderr, errs) ←
      (if present : bool then
         '(f, err) ← Open stderrFilePath;
         mret (FileReader f, append_err errs err)
       else
         b ← Bytes stderrBuf;
         mret (BytesReader b, errs));
    mret (stdout, stderr, exitCode, errs) in
  let withStderr (stdoutWriter : Writer) (stdoutBuf : option nat) : Go ExecuteResult :=
    if decide (stderrFilePath ≠ "") then
      '(stderrFileWriter, err) ← OpenFile host stderrFilePath;
      match err with
      | Some _ => mret (NilReader, NilReader, 0, [])
      | None =>
          let stderrWriter := FileWriter stderrFileWriter in
          defer (Close stderrFileWriter) (finish stdoutWriter stdoutBuf stderrWriter None)
      end
    else
      stderrBuf ← NewBuffer;
      let stderrWriter := BufferWriter stderrBuf in
      finish stdoutWriter stdoutBuf stderrWriter stderrBuf in
  if decide (stdoutFilePath ≠ "") then
    '(stdoutFileWriter, err) ← OpenFile host stdoutFilePath;
    match err with
    | Some _ => mret (NilReader, NilReader, 0, [])
    | None =>
        let stdoutWriter := FileWriter stdoutFileWriter in
        defer (Close stdoutFileWriter) (withStderr stdoutWriter None)
    end
  else
    stdoutBuf ← NewBuffer;
    let stdoutWriter := BufferWriter stdoutBuf in
    withStderr stdoutWriter stdoutBuf.

(** StartExe starts a list of shell commands in the given working
    directory.  [stdoutWriter] and [stderrWriter] are declared nil at
    function scope (line 159).  Inside each [if] block the short variable
    declaration [stdoutWriter, err := os.OpenFile(...)] declares two new
    variables whose scope is that block, here [stdoutWriter'] and
    [stderrWriter']; the deferred [Close] refers to them, and the call of
    [StartCommand] at line 188, outside the blocks, refers to the
    variables of line 159. *)
Definition StartExe (r : Run) (workingDir stdoutFilePath stderrFilePath : string)
    (cancelFlag : CancelFlag)
    (commandName : string) (commandArguments : list string) : Go StartResult :=
  let stdoutWriter : option string := None in
  let stderrWriter : option string := None in
  let launch : Go StartResult :=
    let errs : list error := [] in
    '(process, exitCode, err) ← StartCommand r cancelFlag workingDir
                                  (FileWriter stdoutWriter) (FileWriter stderrWriter)
                                  commandName commandArguments;
    let errs := append_err errs err in
    mret (process, exitCode, errs) in
  let withStderr : Go StartResult :=
    if decide (stderrFilePath ≠ "") then
      '(stderrWriter', err) ← OpenFile host stderrFilePath;
      match err with
      | Some _ => mret (None, 0, [])
      | None => defer (Close stderrWriter') launch
      end
    else launch in
  if decide (stdoutFilePath ≠ "") then
    '(stdoutWriter', err) ← OpenFile host stdoutFilePath;
    match err with
    | Some _ => mret (None, 0, [])
    | None => defer (Close stdoutWriter') withStderr
    end
  else withStderr.

(** CreateScriptFile creates a script containing the given commands. *)
Definition CreateScriptFile (scriptPath : string) (commands : list string)
    : Go (option error) :=
  '(file, err) ← Create host scriptPath;
  match err with
  | Some _ => mret err
  | None =>
      defer (Close file)
        ('(_, err) ← WriteString (room host) file (Join commands newline +:+ newline);
         match err with
         | Some _ => mret err
         | None => mret err
         end)
  end.

(** ** File system predicates used in the statements *)

(** What a successful [OpenFile] leaves at the path: the file that was
    there, or a new empty one. *)
Definition ensure (path : string) (fs : gmap string FileNode) : gmap string FileNode :=
  match fs !! path with
  | Some _ => fs
  | None => <[path := newFile]> fs
  end.

(** An output file the agent can open for appending (or create) and
    read back. *)
Definition usable (path : string) (fs : gmap string FileNode) : Prop :=
  match fs !! path with
  | Some n => writable n = true ∧ readable n = true
  | None => creatable host path = true
  end.

(** A platform hook that leaves the output destinations of the command as
    they are. *)
Definition keepsStreams (hook : Cmd → Cmd) : Prop :=
  ∀ c, Stdout (hook c) = Stdout c ∧ Stderr (hook c) = Stderr c.

(** The file handle a reader holds open, if any. *)
Definition reader_handle (reader : Reader) : list string :=
  match reader with
  | FileReader (Some path) => [path]
  | _ => []
  end.

(** The commands, each followed by one line feed. *)
Definition terminated (commands : list string) : string :=
  fold_right (λ c rest, c +:+ newline +:+ rest) "" commands.

(** ** Properties of the process executor *)

Ltac step_go :=
  unfold ExecuteCommand, StartCommand, Start, Wait, timer_Stop, log, go, modify, gets;
  unfold mbind, Go_bind, mret, Go_ret; cbn.

(** C1: when wait reports an exit status and the normalized exit code
    (-1 if the interrupted flag is set, the status otherwise) is -1, the
    final exit code is the preemptive-stop code if the cancel flag is
    signaled; otherwise the same code if the timer had fired (timer.Stop
    returned false); otherwise -1 unchanged. *)
Theorem exit_minus_one_attribution (r : Run) (cancelFlag : CancelFlag)
    (workingDir : string) (stdoutWriter stderrWriter : Writer) (executionTimeout : Z)
    (commandName : string) (commandArguments : list string) (w : World) (status : Z) :
  startResult r = None →
  waitResult r = Some (ExitError (Some status)) →
  (if execInterruptedOnWindows r then -1 else status) = -1 →
  (ExecuteCommand r cancelFlag workingDir stdoutWriter stderrWriter executionTimeout
     commandName commandArguments w).1
  = Done (if Canceled cancelFlag then CommandStoppedPreemptivelyExitCode
          else if negb (timerStop r) then CommandStoppedPreemptivelyExitCode
          else -1,
          Some (ExitError (Some status))).
Proof.
  intros Hstart Hwait Hnorm. step_go. rewrite Hstart, Hwait. cbn.
  destruct (execInterruptedOnWindows r); cbn.
  - destruct (Canceled cancelFlag); [reflexivity|].
    destruct (timerStop r); reflexivity.
  - subst status. cbn.
    destruct (Canceled cancelFlag); [reflexivity|].
    destruct (timerStop r); reflexivity.
Qed.

(** C2, amended: when wait reports an exit status, the exit code before
    attribution is that status verbatim, or -1 when the interrupted flag
    is set, whatever the status; the result is that value, except that -1
    becomes the preemptive-stop code when the cancel flag is signaled or
    the timer had fired. *)
Theorem exit_status_normalized_then_attributed (r : Run) (cancelFlag : CancelFlag)
    (workingDir : string) (stdoutWriter stderrWriter : Writer) (executionTimeout : Z)
    (commandName : string) (commandArguments : list string) (w : World) (status : Z) :
  startResult r = None →
  waitResult r = Some (ExitError (Some status)) →
  (ExecuteCommand r cancelFlag workingDir stdoutWriter stderrWriter executionTimeout
     commandName commandArguments w).1
  = Done (let normalized := if execInterruptedOnWindows r then -1 else status in
          if decide (normalized = -1)
          then (if Canceled cancelFlag || negb (timerStop r)
                then CommandStoppedPreemptivelyExitCode else -1)
          else normalized,
          Some (ExitError (Some status))).
Proof.
  intros Hstart Hwait. step_go. rewrite Hstart, Hwait. cbn.
  destruct (execInterruptedOnWindows r); cbn.
  - destruct (Canceled cancelFlag); [reflexivity|].
    destruct (timerStop r); reflexivity.
  - destruct (decide (status = -1)) as [->|Hne]; cbn; [|reflexivity].
    destruct (Canceled cancelFlag); [reflexivity|].
    destruct (timerStop r); reflexivity.
Qed.

(** C3: when wait returns no error the exit code is 0 and no error is
    returned, also when the cancel flag is signaled or the timer had
    fired; the failed kill attempt is only logged.  At the level of
    Execute with in-memory sinks the exit code is 0 and the error set is
    empty. *)
Theorem clean_exit_ignores_kill_attempts (r : Run) (cancelFlag : CancelFlag)
    (workingDir : string) (stdoutWriter stderrWriter : Writer) (executionTimeout : Z)
    (commandName : string) (commandArguments : list string) (w : World) :
  startResult r = None →
  waitResult r = None →
  (∃ w', ExecuteCommand r cancelFlag workingDir stdoutWriter stderrWriter
           executionTimeout commandName commandArguments w = (Done (0, None), w')
         ∧ ∃ earlier,
             logged w' =
               (Debug [VStr "Done waiting!"]
                :: (if negb (timerStop r)
                    then [Errorf "the timeout failed to stop the process." []] else [])
                ++ (if Canceled cancelFlag
                    then [Errorf "the cancellation failed to stop the process." []] else [])
                ++ earlier)%list)
  ∧ (∃ out err, (Execute r workingDir "" "" cancelFlag executionTimeout
                   commandName commandArguments w).1
                = Done (BytesReader out, BytesReader err, 0, [])).
Proof.
  intros Hstart Hwait. split.
  - step_go. rewrite Hstart, Hwait. cbn.
    destruct (Canceled cancelFlag), (timerStop r); cbn;
      eexists; (split; [reflexivity|]); cbn; eexists; reflexivity.
  - unfold Execute, NewBuffer, fileutil_Exists, Bytes. step_go.
    rewrite Hstart, Hwait. cbn.
    destruct (Canceled cancelFlag), (timerStop r); cbn;
      eexists; eexists; reflexivity.
Qed.

(** C4: an exit status other than -1, with the interrupted flag not set,
    is returned verbatim, whether or not the cancel flag is signaled or
    the timer had fired. *)
Theorem other_status_verbatim (r : Run) (cancelFlag : CancelFlag)
    (workingDir : string) (stdoutWriter stderrWriter : Writer) (executionTimeout : Z)
    (commandName : string) (commandArguments : list string) (w : World) (status : Z) :
  startResult r = None →
  waitResult r = Some (ExitError (Some status)) →
  status ≠ -1 →
  execInterruptedOnWindows r = false →
  (ExecuteCommand r cancelFlag workingDir stdoutWriter stderrWriter executionTimeout
     commandName commandArguments w).1
  = Done (status, Some (ExitError (Some status))).
Proof.
  intros Hstart Hwait Hne Hflag. step_go. rewrite Hstart, Hwait, Hflag. cbn.
  destruct (decide (status = -1)); [contradiction|]. reflexivity.
Qed.

(** ** The child's environment *)




(** ** Script files *)

Lemma Join_concat (elems : list string) (sep : string) :
  Join elems sep = String.concat sep elems.
Proof.
  induction elems as [|e rest IH]; [reflexivity|].
  destruct rest as [|e' rest]; [reflexivity|].
  cbn [Join String.concat]. cbn [Join String.concat] in IH. rewrite IH. reflexivity.
Qed.

Lemma append_empty_r (s : string) : s +:+ "" = s.
Proof.
  induction s as [|c s IH]; [reflexivity|].
  change (String c (s +:+ "") = String c s). congruence.
Qed.

Lemma append_associative (s1 s2 s3 : string) : (s1 +:+ s2) +:+ s3 = s1 +:+ (s2 +:+ s3).
Proof.
  induction s1 as [|c s1 IH]; [reflexivity|].
  change (String c ((s1 +:+ s2) +:+ s3) = String c (s1 +:+ (s2 +:+ s3))). congruence.
Qed.

Lemma Join_terminated (commands : list string) :
  commands ≠ [] → Join commands newline +:+ newline = terminated commands.
Proof.
  induction commands as [|c rest IH]; [done|]. intros _.
  destruct rest as [|c' rest].
  - change (c +:+ newline = c +:+ newline +:+ ""). rewrite append_empty_r. reflexivity.
  - change (Join (c :: c' :: rest) newline)
      with (c +:+ newline +:+ Join (c' :: rest) newline).
    change (terminated (c :: c' :: rest))
      with (c +:+ newline +:+ terminated (c' :: rest)).
    rewrite <- IH by discriminate. rewrite !append_associative. reflexivity.
Qed.

(** C10: after a successful CreateScriptFile the file at the script path
    holds exactly the commands joined by line feeds, followed by one more
    line feed.  The line feed is character 10; "joined" is the standard
    library's [String.concat]; for an empty command list the file holds a
    single line feed, and otherwise every command, the last included, is
    followed by one line feed. *)
Theorem script_file_content (scriptPath : string) (commands : list string) (w w' : World) :
  CreateScriptFile scriptPath commands w = (Done None, w') →
  data <$> (files w' !! scriptPath)
  = Some (String.concat (String "010"%char "") commands +:+ String "010"%char "")
  ∧ (commands = [] → data <$> (files w' !! scriptPath) = Some (String "010"%char ""))
  ∧ (commands ≠ [] →
     data <$> (files w' !! scriptPath)
     = Some (foldr (λ c rest, c +:+ String "010"%char "" +:+ rest) "" commands)).
Proof.
  intros H.
  assert (Hdata : data <$> (files w' !! scriptPath)
                  = Some (Join commands newline +:+ newline)).
  { revert H. unfold CreateScriptFile, Create, WriteString, defer, Close, modify.
    unfold mbind, Go_bind, mret, Go_ret.
    destruct (node scriptPath (files w)) as [n|] eqn:Hnode.
    - destruct (writable n && readable n); cbn.
      + case_decide; cbn; intros [= <-]; cbn.
        rewrite lookup_alter_eq, lookup_insert_eq. reflexivity.
      + intros [=].
    - destruct (creatable host scriptPath && negb (bool_decide (scriptPath = ""))); cbn.
      + case_decide; cbn; intros [= <-]; cbn.
        rewrite lookup_alter_eq, lookup_insert_eq. reflexivity.
      + intros [=]. }
  split_and!.
  - rewrite Hdata, Join_concat. reflexivity.
  - intros ->. exact Hdata.
  - intros Hne. rewrite Hdata, (Join_terminated commands Hne). reflexivity.
Qed.

(** ** Frame lemmas for the primitives *)

Lemma OpenFile_outcome (path : string) (w : World) :
  (OpenFile host path w = (Done (None, Some (PathError "open" path)), w)
   ∧ match node path (files w) with
     | Some n => writable n = false
     | None => creatable host path && negb (bool_decide (path = "")) = false
     end)
  ∨ (∃ w1, OpenFile host path w = (Done (Some path, None), w1)
       ∧ path ≠ ""
       ∧ files w1 = ensure path (files w)
       ∧ buffers w1 = buffers w
       ∧ handles w1 = path :: handles w
       ∧ started w1 = started w
       ∧ goroutines w1 = goroutines w
       ∧ logged w1 = logged w
       ∧ match files w !! path with
         | Some n => writable n = true
         | None => creatable host path = true
         end).
Proof.
  unfold OpenFile, node, ensure.
  destruct (decide (path = "")) as [->|Hne].
  - left. rewrite bool_decide_eq_true_2 by reflexivity.
    rewrite andb_false_r. split; reflexivity.
  - rewrite bool_decide_eq_false_2 by assumption. rewrite andb_true_r.
    destruct (files w !! path) as [n|] eqn:Hn.
    + destruct (writable n) eqn:Hw.
      * right. eexists. split; [reflexivity|]. cbn. repeat split; (assumption || reflexivity).
      * left. split; reflexivity.
    + destruct (creatable host path) eqn:Hc.
      * right. eexists. split; [reflexivity|]. cbn. repeat split; (assumption || reflexivity).
      * left. split; reflexivity.
Qed.

Lemma StartCommand_outcome (r : Run) (cancelFlag : CancelFlag) (workingDir : string)
    (stdoutWriter stderrWriter : Writer)
    (commandName : string) (commandArguments : list string) (w : World) :
  let command :=
    prepareEnvironment
      (prepareProcess
         (mkCmd commandName (commandName :: commandArguments) workingDir
                stdoutWriter stderrWriter [])) in
  ∃ w1,
    match startResult r with
    | Some e =>
        StartCommand r cancelFlag workingDir stdoutWriter stderrWriter
          commandName commandArguments w = (Done (None, 1, Some e), w1)
        ∧ started w1 = started w ∧ goroutines w1 = goroutines w
    | None =>
        StartCommand r cancelFlag workingDir stdoutWriter stderrWriter
          commandName commandArguments w
        = (Done (Some (mkProcess (childPid r)), 0, None), w1)
        ∧ started w1 = command :: started w
        ∧ goroutines w1 = killProcessOnCancel command :: goroutines w
    end
    ∧ files w1 = files w ∧ buffers w1 = buffers w ∧ handles w1 = handles w.
Proof.
  step_go. destruct (startResult r); cbn; eexists; repeat split; reflexivity.
Qed.

Lemma Close_outcome (f : option string) (w : World) :
  ∃ w1, Close f w = (Done tt, w1)
    ∧ files w1 = files w ∧ buffers w1 = buffers w
    ∧ started w1 = started w ∧ goroutines w1 = goroutines w ∧ logged w1 = logged w.
Proof. destruct f; cbn; eexists; repeat split; reflexivity. Qed.

(** ** StartExe *)

Ltac run_go :=
  repeat first
    [ progress cbn beta iota zeta
    | case_decide
    | match goal with
      | |- context [OpenFile host ?p ?w] =>
          destruct (OpenFile_outcome p w)
            as [[-> ?]|(? & -> & ? & ? & ? & ? & ? & ? & ? & ?)]
      | |- context [StartCommand ?r ?c ?d ?o ?e ?n ?a ?w] =>
          let H := fresh in
          destruct (StartCommand_outcome r c d o e n a w) as (? & H & ? & ? & ?);
          destruct (startResult r) eqn:?; destruct H as (-> & ? & ?)
      | |- context [Close ?f ?w] =>
          destruct (Close_outcome f w) as (? & -> & ? & ? & ? & ? & ?)
      end
    | progress unfold mbind, Go_bind, mret, Go_ret, defer ].

(** C8, as the code behaves: whatever the output file paths are, the
    command StartExe hands to the platform hooks and starts has the nil
    file handle as both Stdout and Stderr; the files opened at the paths
    are closed again and never bound to the process.  Only the
    cancellation observer is started, and the exit code is 0 after a
    successful launch and 1 after a failed one. *)
Theorem StartExe_passes_nil_writers (r : Run)
    (workingDir stdoutFilePath stderrFilePath : string)
    (cancelFlag : CancelFlag) (commandName : string) (commandArguments : list string)
    (w : World) :
  let command :=
    prepareEnvironment
      (prepareProcess
         (mkCmd commandName (commandName :: commandArguments) workingDir
                (FileWriter None) (FileWriter None) [])) in
  let '(res, w') := StartExe r workingDir stdoutFilePath stderrFilePath cancelFlag
                      commandName commandArguments w in
  (started w' = started w ∧ goroutines w' = goroutines w
   ∧ (res = Done (None, 0, []) ∨ ∃ e, startResult r = Some e ∧ res = Done (None, 1, [e])))
  ∨ (started w' = command :: started w
     ∧ goroutines w' = killProcessOnCancel command :: goroutines w
     ∧ res = Done (Some (mkProcess (childPid r)), 0, [])).
Proof.
  intros command. subst command. unfold StartExe. run_go.
  all: try (left; split_and!; [congruence..|eauto]; fail).
  all: right; split_and!; [congruence..|reflexivity].
Qed.
(** ** Execute *)

Lemma ExecuteCommand_outcome (r : Run) (cancelFlag : CancelFlag) (workingDir : string)
    (stdoutWriter stderrWriter : Writer) (executionTimeout : Z)
    (commandName : string) (commandArguments : list string) (w : World) :
  let command :=
    prepareEnvironment
      (prepareProcess
         (mkCmd commandName (commandName :: commandArguments) workingDir
                stdoutWriter stderrWriter [])) in
  let ranFiles := deliver_files (Stderr command) (childStderr r)
                    (deliver_files (Stdout command) (childStdout r) (files w)) in
  let ranBuffers := deliver_buffers (Stderr command) (childStderr r)
                      (deliver_buffers (Stdout command) (childStdout r) (buffers w)) in
  ∃ code w1,
    ExecuteCommand r cancelFlag workingDir stdoutWriter stderrWriter executionTimeout
      commandName commandArguments w
    = (Done (code, match startResult r with Some e => Some e | None => waitResult r end), w1)
    ∧ handles w1 = handles w
    ∧ match startResult r with
      | Some e =>
          code = 1 ∧ files w1 = files w ∧ buffers w1 = buffers w
          ∧ started w1 = started w ∧ goroutines w1 = goroutines w
      | None =>
          files w1 = childEffect r ranFiles ∧ buffers w1 = ranBuffers
          ∧ started w1 = command :: started w
          ∧ goroutines w1 = killProcessOnTimeout command (Duration executionTimeout)
                            :: killProcessOnCancel command :: goroutines w
          ∧ (waitResult r = None → code = 0)
      end.
Proof.
  step_go. destruct (startResult r) as [e|]; cbn.
  - eexists _, _. split; [reflexivity|]. cbn. tauto.
  - destruct (waitResult r) as [[| |[status|]|]|];
      destruct (execInterruptedOnWindows r), (Canceled cancelFlag), (timerStop r); cbn;
      try destruct (decide (status = -1)); cbn;
      eexists _, _; (split; [reflexivity|]); cbn; split_and!; try reflexivity;
      intros; congruence.
Qed.

Lemma Open_outcome (path : string) (w : World) :
  (Open path w = (Done (None, Some (PathError "open" path)), w)
   ∧ match node path (files w) with
     | Some n => readable n = false
     | None => True
     end)
  ∨ (∃ w1 n, Open path w = (Done (Some path, None), w1)
       ∧ node path (files w) = Some n ∧ readable n = true
       ∧ files w1 = files w ∧ buffers w1 = buffers w
       ∧ started w1 = started w ∧ goroutines w1 = goroutines w).
Proof.
  unfold Open. destruct (node path (files w)) as [n|]; [|left; split; reflexivity].
  destruct (readable n) eqn:Hr.
  - right. eexists _, n. split; [reflexivity|]. cbn. tauto.
  - left. split; reflexivity.
Qed.

Lemma node_ensure (path other : string) (fs : gmap string FileNode) :
  path ≠ "" →
  node path (ensure other fs)
  = match node path fs with
    | Some n => Some n
    | None => if decide (path = other) then Some newFile else None
    end.
Proof.
  intros Hne. unfold node, ensure. destruct (decide (path = "")); [contradiction|].
  destruct (fs !! other) eqn:Ho.
  - destruct (fs !! path) eqn:Hp; [reflexivity|].
    case_decide; [congruence|reflexivity].
  - destruct (decide (path = other)) as [->|Hd].
    + rewrite lookup_insert_eq, Ho. reflexivity.
    + rewrite lookup_insert_ne by congruence. destruct (fs !! path); reflexivity.
Qed.

Lemma bool_decide_is_Some_node (path : string) (fs : gmap string FileNode) :
  bool_decide (is_Some (node path fs))
  = match node path fs with Some _ => true | None => false end.
Proof.
  destruct (node path fs).
  - apply bool_decide_eq_true_2. eauto.
  - apply bool_decide_eq_false_2. intros [? ?]. discriminate.
Qed.

Lemma OpenFile_failure_persists (path : string) (w x : World) :
  (OpenFile host path w).1 = Done (None, Some (PathError "open" path)) →
  (files x = files w
   ∨ ∃ other, files x = ensure other (files w)
              ∧ match files w !! other with
                | Some n => writable n = true
                | None => creatable host other = true
                end) →
  OpenFile host path x = (Done (None, Some (PathError "open" path)), x).
Proof.
  intros Hfail Hx.
  destruct (OpenFile_outcome path w) as [[_ Hw]|(w1 & Heq & _)];
    [|rewrite Heq in Hfail; discriminate].
  destruct (OpenFile_outcome path x) as [[Heq _]|(x1 & _ & Hne & _ & _ & _ & _ & _ & _ & Hx1)];
    [exact Heq|exfalso].
  unfold node in Hw. destruct (decide (path = "")); [contradiction|].
  rewrite bool_decide_eq_false_2, andb_true_r in Hw by assumption.
  destruct Hx as [Hx|(other & Hx & Hother)]; rewrite Hx in Hx1.
  - destruct (files w !! path); congruence.
  - pose proof (node_ensure path other (files w) Hne) as Hnode.
    unfold node in Hnode. destruct (decide (path = "")); [contradiction|].
    rewrite Hnode in Hx1.
    destruct (files w !! path) eqn:Hp; [congruence|].
    destruct (decide (path = other)) as [->|]; [|congruence].
    rewrite Hp in Hother. congruence.
Qed.

(** C6, as the code behaves: when an output file cannot be opened,
    Execute returns at once with the zero values of its results and
    starts no process and no observer; the error set it returns is empty,
    the error of the failed open is dropped. *)
Theorem Execute_sink_setup_failure (r : Run)
    (workingDir stdoutFilePath stderrFilePath : string) (cancelFlag : CancelFlag)
    (executionTimeout : Z) (commandName : string) (commandArguments : list string)
    (w : World) :
  (stdoutFilePath ≠ ""
   ∧ (OpenFile host stdoutFilePath w).1 = Done (None, Some (PathError "open" stdoutFilePath)))
  ∨ (stderrFilePath ≠ ""
     ∧ (OpenFile host stderrFilePath w).1 = Done (None, Some (PathError "open" stderrFilePath))) →
  let '(res, w') := Execute r workingDir stdoutFilePath stderrFilePath cancelFlag
                      executionTimeout commandName commandArguments w in
  res = Done (NilReader, NilReader, 0, [])
  ∧ started w' = started w
  ∧ goroutines w' = goroutines w.
Proof.
  intros Hfail. unfold Execute.
  destruct Hfail as [[Hne Hfail]|[Hne Hfail]].
  - case_decide; [|contradiction].
    unfold mbind at 1, Go_bind at 1.
    destruct (OpenFile_outcome stdoutFilePath w)
      as [[Heq ?]|(? & Heq & ?)]; rewrite Heq in *; cbn in *; [|discriminate].
    auto.
  - destruct (decide (stdoutFilePath ≠ "")) as [Hout|Hout].
    + unfold mbind at 1, Go_bind at 1.
      destruct (OpenFile_outcome stdoutFilePath w)
        as [[-> ?]|(x & -> & _ & Hfiles & _ & _ & Hs & Hg & _ & Hopened)]; cbn; [auto|].
      unfold defer at 1. case_decide; [|contradiction].
      unfold mbind at 1, Go_bind at 1.
      rewrite (OpenFile_failure_persists stderrFilePath w x Hfail) by eauto. cbn.
      split_and!; cbn; congruence.
    + unfold NewBuffer. unfold mbind at 1, Go_bind at 1. cbn beta iota zeta.
      case_decide; [|contradiction].
      unfold mbind at 1, Go_bind at 1.
      rewrite (OpenFile_failure_persists stderrFilePath w _ Hfail) by (left; reflexivity).
      cbn. auto.
Qed.

(** C7, as the code behaves when the file is missing: with stdout
    directed to a file that was opened and a child that leaves no file at
    that path, Execute finds the file absent, falls back to the in-memory
    buffer, which is nil for a stream configured as a file, and panics. *)
Theorem Execute_missing_output_file_panics (r : Run)
    (workingDir stdoutFilePath : string) (cancelFlag : CancelFlag)
    (executionTimeout : Z) (commandName : string) (commandArguments : list string)
    (w : World) :
  stdoutFilePath ≠ "" →
  (OpenFile host stdoutFilePath w).1 = Done (Some stdoutFilePath, None) →
  startResult r = None →
  (∀ fs, childEffect r fs !! stdoutFilePath = None) →
  (Execute r workingDir stdoutFilePath "" cancelFlag executionTimeout
     commandName commandArguments w).1
  = Panic "invalid memory address or nil pointer dereference".
Proof.
  intros Hne Hopen Hstart Hgone. unfold Execute.
  case_decide; [|contradiction].
  unfold mbind at 1, Go_bind at 1.
  destruct (OpenFile_outcome stdoutFilePath w) as [[Heq _]|(x & Heq & _)];
    rewrite Heq in *; cbn in Hopen; [discriminate|]. cbn beta iota zeta.
  unfold defer at 1. case_decide; [contradiction|].
  unfold NewBuffer. unfold mbind at 1, Go_bind at 1. cbn beta iota zeta.
  unfold mbind at 1, Go_bind at 1.
  match goal with
  | |- context [ExecuteCommand ?r ?c ?d ?o ?e ?t ?n ?a ?w] =>
      destruct (ExecuteCommand_outcome r c d o e t n a w) as (code & x1 & -> & _ & Hrun)
  end.
  rewrite Hstart in Hrun. destruct Hrun as (Hfiles & _). cbn beta iota zeta.
  unfold fileutil_Exists, gets. unfold mbind at 1, Go_bind at 1. cbn beta iota zeta.
  assert (Habsent : node stdoutFilePath (files x1) = None).
  { unfold node. case_decide; [reflexivity|]. rewrite Hfiles. apply Hgone. }
  rewrite Habsent. rewrite bool_decide_eq_false_2 by (intros [? ?]; discriminate).
  reflexivity.
Qed.

Lemma node_empty (fs : gmap string FileNode) : node "" fs = None.
Proof. reflexivity. Qed.

Lemma node_lookup (path : string) (fs : gmap string FileNode) :
  path ≠ "" → node path fs = fs !! path.
Proof. intros Hne. unfold node. case_decide; [contradiction|reflexivity]. Qed.

Lemma OpenFile_usable (path : string) (w : World) :
  path ≠ "" → usable path (files w) →
  ∃ x, OpenFile host path w = (Done (Some path, None), x)
    ∧ files x = ensure path (files w) ∧ buffers x = buffers w
    ∧ started x = started w ∧ goroutines x = goroutines w.
Proof.
  intros Hne Hu. unfold usable in Hu.
  destruct (OpenFile_outcome path w) as [[_ Hw]|(x & Heq & _ & Hf & Hb & _ & Hs & Hg & _)].
  - exfalso. rewrite node_lookup in Hw by assumption.
    rewrite bool_decide_eq_false_2, andb_true_r in Hw by assumption.
    destruct (files w !! path); [destruct Hu|]; congruence.
  - exists x. auto.
Qed.

Lemma ensure_usable (path : string) (fs : gmap string FileNode) :
  path ≠ "" → usable path fs →
  ∃ n, node path (ensure path fs) = Some n ∧ readable n = true
       ∧ data n = from_option data "" (node path fs).
Proof.
  intros Hne Hu. rewrite node_ensure by assumption. rewrite node_lookup by assumption.
  unfold usable in Hu. destruct (fs !! path) as [n|].
  - exists n. tauto.
  - case_decide; [|contradiction]. exists newFile. auto.
Qed.

Lemma ensure_keeps (path other : string) (fs : gmap string FileNode) (n : FileNode) :
  node path fs = Some n → node path (ensure other fs) = Some n.
Proof.
  intros Hn. assert (path ≠ "") by (intros ->; discriminate).
  rewrite node_ensure by assumption. rewrite Hn. reflexivity.
Qed.

Lemma usable_ensure (path other : string) (fs : gmap string FileNode) :
  path ≠ "" → usable path fs →
  usable path (ensure other fs)
  ∧ from_option data "" (node path (ensure other fs)) = from_option data "" (node path fs).
Proof.
  intros Hne Hu. pose proof (node_ensure path other fs Hne) as Hn.
  rewrite !node_lookup in * by assumption. unfold usable in *. rewrite Hn.
  destruct (fs !! path); [auto|]. case_decide; cbn; auto.
Qed.

Lemma Open_readable (path : string) (w : World) (n : FileNode) :
  node path (files w) = Some n → readable n = true →
  ∃ x, Open path w = (Done (Some path, None), x)
    ∧ files x = files w ∧ buffers x = buffers w
    ∧ started x = started w ∧ goroutines x = goroutines w.
Proof.
  intros Hn Hr.
  destruct (Open_outcome path w) as [[_ Hw]|(x & n' & Heq & _ & _ & ?)].
  - rewrite Hn in Hw. congruence.
  - exists x. auto.
Qed.

Lemma ExecuteCommand_launch_failure (r : Run) (cancelFlag : CancelFlag)
    (workingDir : string) (stdoutWriter stderrWriter : Writer) (executionTimeout : Z)
    (commandName : string) (commandArguments : list string) (w : World) (e : error) :
  startResult r = Some e →
  ∃ w1, ExecuteCommand r cancelFlag workingDir stdoutWriter stderrWriter
          executionTimeout commandName commandArguments w = (Done (1, Some e), w1)
    ∧ files w1 = files w ∧ buffers w1 = buffers w
    ∧ started w1 = started w ∧ goroutines w1 = goroutines w.
Proof.
  intros Hstart.
  destruct (ExecuteCommand_outcome r cancelFlag workingDir stdoutWriter stderrWriter
              executionTimeout commandName commandArguments w)
    as (code & w1 & Heq & _ & Hrun).
  rewrite Hstart in Heq, Hrun. destruct Hrun as (-> & ? & ? & ? & ?). eauto 10.
Qed.

Lemma fresh_buffers (bs : gmap nat string) :
  let b1 := fresh (dom bs) in
  let b2 := fresh (dom (<[b1:=""]> bs)) in
  <[b2:=""]> (<[b1:=""]> bs) !! b1 = Some ""
  ∧ <[b2:=""]> (<[b1:=""]> bs) !! b2 = Some "".
Proof.
  intros b1 b2. split; [|apply lookup_insert_eq].
  rewrite lookup_insert_ne; [apply lookup_insert_eq|].
  intros Heq. pose proof (is_fresh (dom (<[b1:=""]> bs))) as Hf.
  fold b2 in Hf. rewrite Heq in Hf. apply Hf. set_solver.
Qed.

Lemma bind_run {A B} (m : Go A) (f : A → Go B) (w : World) :
  (m ≫= f) w
  = match m w with
    | (Done a, w') => f a w'
    | (Panic msg, w') => (Panic msg, w')
    end.
Proof. reflexivity. Qed.

Lemma ret_run {A} (a : A) (w : World) : (mret a : Go A) w = (Done a, w).
Proof. reflexivity. Qed.

Lemma defer_run {A} (cleanup : Go unit) (body : Go A) (w : World) :
  defer cleanup body w
  = match body w with
    | (r, w') =>
        match cleanup w' with
        | (Done _, w'') => (r, w'')
        | (Panic msg, w'') => (Panic msg, w'')
        end
    end.
Proof. reflexivity. Qed.

Lemma Exists_run (path : string) (w : World) :
  fileutil_Exists path w
  = (Done (match node path (files w) with Some _ => true | None => false end), w).
Proof. unfold fileutil_Exists, gets. rewrite bool_decide_is_Some_node. reflexivity. Qed.

Lemma NewBuffer_run (w : World) :
  NewBuffer w = (Done (Some (fresh (dom (buffers w)))),
                 set_buffers (insert (fresh (dom (buffers w))) "") w).
Proof. reflexivity. Qed.

Lemma Bytes_run (b : nat) (w : World) :
  Bytes (Some b) w = (Done (default "" (buffers w !! b)), w).
Proof. reflexivity. Qed.

Ltac go_step :=
  repeat first
    [ rewrite bind_run | rewrite ret_run | rewrite defer_run
    | rewrite Exists_run | rewrite NewBuffer_run | rewrite Bytes_run
    | rewrite node_empty
    | progress cbn [files buffers handles started goroutines logged
                    set_files set_buffers set_handles set_started set_goroutines
                    set_logged] ].

Lemma Open_unreadable (path : string) (w : World) (n : FileNode) :
  node path (files w) = Some n → readable n = false →
  Open path w = (Done (None, Some (PathError "open" path)), w).
Proof. intros Hn Hr. unfold Open. rewrite Hn, Hr. reflexivity. Qed.

(** The other half of C7: an output file that is still there after the run
    but cannot be opened for reading gives a nil file as reader and one
    more error in the error set; Execute returns, and the reader of the
    other stream is the buffer's. *)
Lemma Execute_unreadable_output_file_reports (r : Run)
    (workingDir stdoutFilePath : string) (cancelFlag : CancelFlag)
    (executionTimeout : Z) (commandName : string) (commandArguments : list string)
    (w : World) :
  stdoutFilePath ≠ "" →
  usable stdoutFilePath (files w) →
  startResult r = None →
  (∀ fs, ∃ n, childEffect r fs !! stdoutFilePath = Some n ∧ readable n = false) →
  ∃ code err w',
    Execute r workingDir stdoutFilePath "" cancelFlag executionTimeout
      commandName commandArguments w
    = (Done (FileReader None, BytesReader err, code,
             append_err (append_err [] (waitResult r))
               (Some (PathError "open" stdoutFilePath))), w').
Proof.
  intros Hne Hu Hstart Hchild. unfold Execute.
  cbn beta iota zeta. case_decide; [|done]. go_step.
  destruct (OpenFile_usable stdoutFilePath w Hne Hu) as (x & -> & Hfx & Hbx & Hsx & Hgx).
  go_step. case_decide; [done|]. go_step.
  match goal with
  | |- context [ExecuteCommand ?r ?c ?d ?o ?e ?t ?n ?a ?w] =>
      destruct (ExecuteCommand_outcome r c d o e t n a w) as (code & x1 & -> & _ & Hrun)
  end.
  rewrite Hstart in Hrun |- *. destruct Hrun as (Hf1 & _).
  match type of Hf1 with
  | _ = childEffect r ?fs => destruct (Hchild fs) as (n & Hn & Hr)
  end.
  rewrite <- Hf1, <- (node_lookup _ _ Hne) in Hn.
  go_step. rewrite Hn. go_step.
  rewrite (Open_unreadable stdoutFilePath x1 n Hn Hr). go_step. cbn.
  eexists _, _, _. reflexivity.
Qed.

(** C5, amended: when process creation fails, ExecuteCommand returns exit
    code 1 with the launch error and starts no observer and no process.
    At the level of Execute, when every configured output file can be
    opened and read back, the exit code is 1, the error set is the launch
    error alone, and each reader yields what its sink held before the
    call: nothing for an in-memory buffer or a file the call created, the
    earlier content for a file that was already there. *)
Theorem launch_failure_reported (r : Run)
    (workingDir stdoutFilePath stderrFilePath : string) (cancelFlag : CancelFlag)
    (stdoutWriter stderrWriter : Writer)
    (executionTimeout : Z) (commandName : string) (commandArguments : list string)
    (w : World) (e : error) :
  startResult r = Some e →
  (stdoutFilePath ≠ "" → usable stdoutFilePath (files w)) →
  (stderrFilePath ≠ "" → usable stderrFilePath (files w)) →
  (∃ w1, ExecuteCommand r cancelFlag workingDir stdoutWriter stderrWriter
           executionTimeout commandName commandArguments w = (Done (1, Some e), w1)
         ∧ started w1 = started w ∧ goroutines w1 = goroutines w)
  ∧ (∃ stdout stderr w',
       Execute r workingDir stdoutFilePath stderrFilePath cancelFlag executionTimeout
         commandName commandArguments w = (Done (stdout, stderr, 1, [e]), w')
       ∧ started w' = started w ∧ goroutines w' = goroutines w
       ∧ (ReadAll stdout w').1
         = Done (from_option data "" (node stdoutFilePath (files w)), None)
       ∧ (ReadAll stderr w').1
         = Done (from_option data "" (node stderrFilePath (files w)), None)).
Proof.
  intros Hstart Hout Herr. split.
  - destruct (ExecuteCommand_launch_failure r cancelFlag workingDir stdoutWriter
                stderrWriter executionTimeout commandName commandArguments w e Hstart)
      as (w1 & Heq & _ & _ & Hs & Hg). eauto.
  - unfold Execute.
    destruct (decide (stdoutFilePath = "")) as [->|Hno];
      destruct (decide (stderrFilePath = "")) as [->|Hne].
    + (* both streams in memory *)
      cbn beta iota zeta. case_decide; [done|]. go_step.
      match goal with
      | |- context [ExecuteCommand ?r ?c ?d ?o ?e ?t ?n ?a ?w] =>
          destruct (ExecuteCommand_launch_failure r c d o e t n a w _ Hstart)
            as (x & -> & Hf & Hb & Hs & Hg)
      end.
      cbn in Hf, Hb, Hs, Hg. go_step. rewrite Hb.
      destruct (fresh_buffers (buffers w)) as [-> ->]. cbn.
      eexists _, _, _. split; [reflexivity|]. cbn. auto.
    + (* stdout in memory, stderr to a file *)
      cbn beta iota zeta. case_decide; [done|]. go_step. case_decide; [|done]. go_step.
      match goal with
      | |- context [OpenFile host ?p ?w] =>
          destruct (OpenFile_usable p w Hne (Herr Hne)) as (x & -> & Hfx & Hbx & Hsx & Hgx)
      end.
      cbn in Hfx, Hbx, Hsx, Hgx. go_step.
      match goal with
      | |- context [ExecuteCommand ?r ?c ?d ?o ?e ?t ?n ?a ?w] =>
          destruct (ExecuteCommand_launch_failure r c d o e t n a w _ Hstart)
            as (x1 & -> & Hf1 & Hb1 & Hs1 & Hg1)
      end.
      destruct (ensure_usable stderrFilePath (files w) Hne (Herr Hne)) as (n & Hn & Hr & Hd).
      rewrite <- Hfx, <- Hf1 in Hn.
      go_step. rewrite Hn. go_step.
      destruct (Open_readable stderrFilePath x1 n Hn Hr) as (x2 & -> & Hf2 & Hb2 & Hs2 & Hg2).
      go_step. cbn.
      eexists _, _, _. split; [reflexivity|]. cbn.
      rewrite Hf2, Hn, Hb1, Hbx, lookup_insert_eq, Hd. cbn.
      split_and!; [congruence..|reflexivity|reflexivity].
    + (* stdout to a file, stderr in memory *)
      cbn beta iota zeta. case_decide; [|done]. go_step.
      destruct (OpenFile_usable stdoutFilePath w Hno (Hout Hno))
        as (x & -> & Hfx & Hbx & Hsx & Hgx).
      go_step. case_decide; [done|]. go_step.
      match goal with
      | |- context [ExecuteCommand ?r ?c ?d ?o ?e ?t ?n ?a ?w] =>
          destruct (ExecuteCommand_launch_failure r c d o e t n a w _ Hstart)
            as (x1 & -> & Hf1 & Hb1 & Hs1 & Hg1)
      end.
      cbn in Hf1, Hb1, Hs1, Hg1.
      destruct (ensure_usable stdoutFilePath (files w) Hno (Hout Hno)) as (n & Hn & Hr & Hd).
      rewrite <- Hfx, <- Hf1 in Hn.
      go_step. rewrite Hn. go_step.
      destruct (Open_readable stdoutFilePath x1 n Hn Hr) as (x2 & -> & Hf2 & Hb2 & Hs2 & Hg2).
      go_step. cbn.
      eexists _, _, _. split; [reflexivity|]. cbn.
      rewrite Hf2, Hn, Hb2, Hb1, lookup_insert_eq, Hd. cbn.
      split_and!; [congruence..|reflexivity|reflexivity].
    + (* both streams to files *)
      cbn beta iota zeta. case_decide; [|done]. go_step.
      destruct (OpenFile_usable stdoutFilePath w Hno (Hout Hno))
        as (x & -> & Hfx & Hbx & Hsx & Hgx).
      go_step. case_decide; [|done]. go_step.
      destruct (usable_ensure stderrFilePath stdoutFilePath (files w) Hne (Herr Hne))
        as (Hu & Hdata).
      rewrite <- Hfx in Hu, Hdata.
      destruct (OpenFile_usable stderrFilePath x Hne Hu)
        as (x' & -> & Hfx' & Hbx' & Hsx' & Hgx').
      go_step.
      match goal with
      | |- context [ExecuteCommand ?r ?c ?d ?o ?e ?t ?n ?a ?w] =>
          destruct (ExecuteCommand_launch_failure r c d o e t n a w _ Hstart)
            as (x1 & -> & Hf1 & Hb1 & Hs1 & Hg1)
      end.
      destruct (ensure_usable stdoutFilePath (files w) Hno (Hout Hno)) as (n & Hn & Hr & Hd).
      rewrite <- Hfx in Hn.
      apply (ensure_keeps _ stderrFilePath) in Hn. rewrite <- Hfx', <- Hf1 in Hn.
      destruct (ensure_usable stderrFilePath (files x) Hne Hu) as (n' & Hn' & Hr' & Hd').
      rewrite <- Hfx', <- Hf1 in Hn'.
      go_step. rewrite Hn. go_step.
      destruct (Open_readable stdoutFilePath x1 n Hn Hr) as (x2 & -> & Hf2 & Hb2 & Hs2 & Hg2).
      go_step. rewrite Hf2, Hn'. go_step.
      rewrite <- Hf2 in Hn'.
      destruct (Open_readable stderrFilePath x2 n' Hn' Hr') as (x3 & -> & Hf3 & Hb3 & Hs3 & Hg3).
      go_step. cbn.
      eexists _, _, _. split; [reflexivity|]. cbn.
      rewrite Hf3, Hn', Hf2, Hn, Hd, Hd', Hdata.
      split_and!; [congruence..|reflexivity|reflexivity].
Qed.
(** * Further properties *)

(** ** ExecuteCommand *)

(** X1: whenever ExecuteCommand returns, it returns a nil error exactly
    when the process was created and wait reported no error, and a nil
    error always comes with exit code 0: a non-zero exit code is never
    returned without an error.  (A [Run] describes an execution in which
    command.Wait() returns; nothing is said of a wait that blocks.) *)
Theorem ExecuteCommand_nil_error_iff_clean (r : Run) (cancelFlag : CancelFlag)
    (workingDir : string) (stdoutWriter stderrWriter : Writer) (executionTimeout : Z)
    (commandName : string) (commandArguments : list string) (w : World)
    (code : Z) (err : option error) :
  (ExecuteCommand r cancelFlag workingDir stdoutWriter stderrWriter executionTimeout
     commandName commandArguments w).1 = Done (code, err) →
  (err = None ↔ startResult r = None ∧ waitResult r = None)
  ∧ (err = None → code = 0).
Proof.
  destruct (ExecuteCommand_outcome r cancelFlag workingDir stdoutWriter stderrWriter
              executionTimeout commandName commandArguments w)
    as (code' & w1 & Heq & _ & Hrun).
  rewrite Heq. cbn [fst]. intros [= <- <-].
  destruct (startResult r) as [e|].
  - split; [split; [discriminate|intros [? _]; discriminate]|discriminate].
  - destruct Hrun as (_ & _ & _ & _ & Hcode). split; [|exact Hcode].
    split; [auto|intros [_ ?]; assumption].
Qed.

(** X2: when wait returns an error that carries no exit status (not an
    exec.ExitError, or one whose Sys() is not a wait status), the exit code
    is 1 whatever the cancel flag, the timer and the interrupted flag say. *)
Theorem wait_error_without_status_gives_one (r : Run) (cancelFlag : CancelFlag)
    (workingDir : string) (stdoutWriter stderrWriter : Writer) (executionTimeout : Z)
    (commandName : string) (commandArguments : list string) (w : World) (e : error) :
  startResult r = None →
  waitResult r = Some e →
  (∀ status, e ≠ ExitError (Some status)) →
  (ExecuteCommand r cancelFlag workingDir stdoutWriter stderrWriter executionTimeout
     commandName commandArguments w).1
  = Done (1, Some e).
Proof.
  intros Hstart Hwait Hno. step_go. rewrite Hstart, Hwait. cbn.
  destruct e as [| |[status|]|]; try reflexivity.
  exfalso. exact (Hno status eq_refl).
Qed.

(** X3: when neither the cancel flag is signaled nor the timer had fired,
    the preemptive-stop code is never substituted: the exit code is the
    status wait reported, -1 included, or -1 when the interrupted flag is
    set. *)
Theorem no_observer_no_substitution (r : Run) (cancelFlag : CancelFlag)
    (workingDir : string) (stdoutWriter stderrWriter : Writer) (executionTimeout : Z)
    (commandName : string) (commandArguments : list string) (w : World) (status : Z) :
  startResult r = None →
  waitResult r = Some (ExitError (Some status)) →
  Canceled cancelFlag = false →
  timerStop r = true →
  (ExecuteCommand r cancelFlag workingDir stdoutWriter stderrWriter executionTimeout
     commandName commandArguments w).1
  = Done (if execInterruptedOnWindows r then -1 else status,
          Some (ExitError (Some status))).
Proof.
  intros Hstart Hwait Hcancel Htimer. step_go.
  rewrite Hstart, Hwait, Hcancel, Htimer. cbn.
  destruct (execInterruptedOnWindows r); cbn; [reflexivity|].
  destruct (decide (status = -1)) as [->|]; reflexivity.
Qed.

Lemma wrap64_small (z : Z) : (- 2 ^ 63 ≤ z < 2 ^ 63)%Z → wrap64 z = z.
Proof. intros Hz. unfold wrap64. rewrite Z.mod_small by lia. lia. Qed.

Lemma wrap64_above (z : Z) : (2 ^ 63 ≤ z < 2 ^ 64 + 2 ^ 63)%Z → wrap64 z = z - 2 ^ 64.
Proof.
  intros Hz. unfold wrap64.
  replace (z + 2 ^ 63) with (z + 2 ^ 63 - 2 ^ 64 + 1 * 2 ^ 64) by lia.
  rewrite Z_mod_plus_full, Z.mod_small by lia. lia.
Qed.

(** X4: for a timeout of at most 9223372036 seconds in absolute value the
    timeout observer started by ExecuteCommand is armed with exactly that
    many seconds, counted in nanoseconds, for the command whose process was
    created. *)
Theorem timeout_observer_duration_exact (r : Run) (cancelFlag : CancelFlag)
    (workingDir : string) (stdoutWriter stderrWriter : Writer) (executionTimeout : Z)
    (commandName : string) (commandArguments : list string) (w : World) :
  startResult r = None →
  (-9223372036 ≤ executionTimeout ≤ 9223372036)%Z →
  let w' := (ExecuteCommand r cancelFlag workingDir stdoutWriter stderrWriter
               executionTimeout commandName commandArguments w).2 in
  ∃ command,
    started w' = command :: started w
    ∧ goroutines w' = killProcessOnTimeout command (executionTimeout * 1000000000)
                      :: killProcessOnCancel command :: goroutines w.
Proof.
  intros Hstart Hrange w'. subst w'.
  destruct (ExecuteCommand_outcome r cancelFlag workingDir stdoutWriter stderrWriter
              executionTimeout commandName commandArguments w)
    as (code & w1 & -> & _ & Hrun).
  rewrite Hstart in Hrun. destruct Hrun as (_ & _ & Hs & Hg & _).
  eexists. split; [exact Hs|]. cbn [snd]. rewrite Hg. do 2 f_equal.
  unfold Duration, Second. rewrite (wrap64_small executionTimeout) by lia.
  apply wrap64_small. lia.
Qed.

(** X5: a timeout between 9223372037 and 18446744073 seconds overflows the
    64-bit nanosecond count: the timeout observer is armed with a negative
    duration. *)
Theorem timeout_observer_duration_wraps (r : Run) (cancelFlag : CancelFlag)
    (workingDir : string) (stdoutWriter stderrWriter : Writer) (executionTimeout : Z)
    (commandName : string) (commandArguments : list string) (w : World) :
  startResult r = None →
  (9223372036 < executionTimeout ≤ 18446744073)%Z →
  let w' := (ExecuteCommand r cancelFlag workingDir stdoutWriter stderrWriter
               executionTimeout commandName commandArguments w).2 in
  ∃ command duration,
    goroutines w' = killProcessOnTimeout command duration
                    :: killProcessOnCancel command :: goroutines w
    ∧ duration = executionTimeout * 1000000000 - 2 ^ 64
    ∧ (duration < 0)%Z.
Proof.
  intros Hstart Hrange w'. subst w'.
  destruct (ExecuteCommand_outcome r cancelFlag workingDir stdoutWriter stderrWriter
              executionTimeout commandName commandArguments w)
    as (code & w1 & -> & _ & Hrun).
  rewrite Hstart in Hrun. destruct Hrun as (_ & _ & _ & Hg & _).
  eexists _, _. split; [exact Hg|].
  unfold Duration, Second. rewrite (wrap64_small executionTimeout) by lia.
  rewrite wrap64_above by lia. lia.
Qed.

(** ** Execute *)

Lemma prepared_streams (c : Cmd) :
  keepsStreams prepareProcess → keepsStreams validateEnvironmentVariables →
  Stdout (prepareEnvironment (prepareProcess c)) = Stdout c
  ∧ Stderr (prepareEnvironment (prepareProcess c)) = Stderr c.
Proof.
  intros Hp Hv. unfold prepareEnvironment. cbv zeta.
  match goal with
  | |- context [validateEnvironmentVariables ?c'] => destruct (Hv c') as [-> ->]
  end.
  cbn. apply Hp.
Qed.

Lemma ExecuteCommand_result_independent (r : Run) (cancelFlag : CancelFlag)
    (workingDir : string) (stdoutWriter stderrWriter stdoutWriter' stderrWriter' : Writer)
    (executionTimeout : Z) (commandName : string) (commandArguments : list string)
    (w w' : World) :
  (ExecuteCommand r cancelFlag workingDir stdoutWriter stderrWriter executionTimeout
     commandName commandArguments w).1
  = (ExecuteCommand r cancelFlag workingDir stdoutWriter' stderrWriter' executionTimeout
       commandName commandArguments w').1.
Proof.
  step_go. destruct (startResult r) as [e|]; [reflexivity|]. cbn.
  destruct (waitResult r) as [[| |[status|]|]|];
    destruct (execInterruptedOnWindows r), (Canceled cancelFlag), (timerStop r); cbn;
    try destruct (decide (status = -1)); reflexivity.
Qed.

(** X6: with both streams captured in memory and platform hooks that leave
    the output destinations alone, Execute returns exactly the bytes the
    child wrote on each stream, whatever wait reports: the output is there
    also when the error set is not empty.  The exit code is ExecuteCommand's
    and the error set is wait's error, if any. *)
Theorem Execute_memory_output_preserved (r : Run) (workingDir : string)
    (cancelFlag : CancelFlag) (executionTimeout : Z)
    (commandName : string) (commandArguments : list string) (w : World) :
  keepsStreams prepareProcess →
  keepsStreams validateEnvironmentVariables →
  startResult r = None →
  ∃ code w',
    Execute r workingDir "" "" cancelFlag executionTimeout commandName commandArguments w
    = (Done (BytesReader (childStdout r), BytesReader (childStderr r), code,
             append_err [] (waitResult r)), w')
    ∧ ∀ stdoutWriter stderrWriter w0,
        (ExecuteCommand r cancelFlag workingDir stdoutWriter stderrWriter
           executionTimeout commandName commandArguments w0).1
        = Done (code, waitResult r).
Proof.
  intros Hp Hv Hstart. unfold Execute.
  cbn beta iota zeta. case_decide; [done|]. go_step.
  match goal with
  | |- context [ExecuteCommand ?r ?c ?d ?o ?e ?t ?n ?a ?w] =>
      pose proof (ExecuteCommand_result_independent r c d o e) as Hind;
      destruct (ExecuteCommand_outcome r c d o e t n a w) as (code & x & Heq & _ & Hrun)
  end.
  rewrite Heq. rewrite Hstart in Hrun, Heq |- *. destruct Hrun as (_ & Hb & _).
  match type of Hb with
  | context [prepareEnvironment (prepareProcess ?c)] =>
      destruct (prepared_streams c Hp Hv) as [Hso Hse]
  end.
  rewrite Hso, Hse in Hb. cbn in Hb.
  go_step. rewrite Hb.
  set (b1 := fresh (dom (buffers w))) in *.
  set (b2 := fresh (dom (<[b1:=""]> (buffers w)))) in *.
  assert (Hne : b2 ≠ b1).
  { intros Heqb. pose proof (is_fresh (dom (<[b1:=""]> (buffers w)))) as Hf.
    fold b2 in Hf. rewrite Heqb in Hf. apply Hf. set_solver. }
  rewrite lookup_alter_ne, lookup_alter_eq, lookup_insert_ne, lookup_insert_eq by done.
  rewrite lookup_alter_eq, lookup_alter_ne, lookup_insert_eq by done.
  cbn. eexists _, _. split; [reflexivity|].
  intros so se w0. erewrite <- Hind. rewrite Heq. reflexivity.
Qed.

Lemma ensure_node (path : string) (fs : gmap string FileNode) :
  path ≠ "" → usable path fs →
  ∃ n, node path (ensure path fs) = Some n
       ∧ readable n = true ∧ writable n = true
       ∧ data n = from_option data "" (node path fs).
Proof.
  intros Hne Hu. rewrite node_ensure by assumption. rewrite node_lookup by assumption.
  unfold usable in Hu. destruct (fs !! path) as [n|].
  - exists n. tauto.
  - case_decide; [|contradiction]. exists newFile. auto.
Qed.

Lemma usable_node (path : string) (fs : gmap string FileNode) (n : FileNode) :
  node path fs = Some n → readable n = true → writable n = true → usable path fs.
Proof.
  intros Hn Hr Hw. assert (path ≠ "") by (intros ->; discriminate).
  rewrite node_lookup in Hn by assumption. unfold usable. rewrite Hn. auto.
Qed.

(** One run of Execute with stdout appended to a usable file and stderr in
    memory, a child that started and touches no file on its own. *)
Lemma Execute_file_run (r : Run) (workingDir stdoutFilePath : string)
    (cancelFlag : CancelFlag) (executionTimeout : Z)
    (commandName : string) (commandArguments : list string) (w : World) :
  keepsStreams prepareProcess →
  keepsStreams validateEnvironmentVariables →
  stdoutFilePath ≠ "" →
  usable stdoutFilePath (files w) →
  startResult r = None →
  (∀ fs, childEffect r fs = fs) →
  ∃ code w' n,
    Execute r workingDir stdoutFilePath "" cancelFlag executionTimeout
      commandName commandArguments w
    = (Done (FileReader (Some stdoutFilePath), BytesReader (childStderr r), code,
             append_err [] (waitResult r)), w')
    ∧ node stdoutFilePath (files w') = Some (append_data (childStdout r) n)
    ∧ readable n = true ∧ writable n = true
    ∧ data n = from_option data "" (node stdoutFilePath (files w)).
Proof.
  intros Hp Hv Hne Hu Hstart Hchild. unfold Execute.
  cbn beta iota zeta. case_decide; [|done]. go_step.
  destruct (OpenFile_usable stdoutFilePath w Hne Hu) as (x & -> & Hfx & Hbx & Hsx & Hgx).
  go_step. case_decide; [done|]. go_step.
  match goal with
  | |- context [ExecuteCommand ?r ?c ?d ?o ?e ?t ?n ?a ?w] =>
      destruct (ExecuteCommand_outcome r c d o e t n a w) as (code & x1 & -> & _ & Hrun)
  end.
  rewrite Hstart in Hrun |- *. destruct Hrun as (Hf1 & Hb1 & _).
  match type of Hb1 with
  | context [prepareEnvironment (prepareProcess ?c)] =>
      destruct (prepared_streams c Hp Hv) as [Hso Hse]
  end.
  rewrite Hso, Hse in Hf1, Hb1. cbn in Hf1, Hb1. rewrite Hchild, Hfx in Hf1.
  destruct (ensure_node stdoutFilePath (files w) Hne Hu) as (n & Hn & Hr & Hw & Hd).
  assert (Hn1 : node stdoutFilePath (files x1) = Some (append_data (childStdout r) n)).
  { rewrite node_lookup in Hn |- * by assumption.
    rewrite Hf1, lookup_alter_eq, Hn. reflexivity. }
  go_step. rewrite Hn1. go_step.
  destruct (Open_readable stdoutFilePath x1 _ Hn1 Hr) as (x2 & -> & Hf2 & Hb2 & Hs2 & Hg2).
  go_step. rewrite Hb2, Hb1, lookup_alter_eq, lookup_insert_eq. cbn.
  eexists _, _, n. split; [reflexivity|]. cbn. rewrite Hf2. auto.
Qed.

(** X7: Execute never truncates an output file.  With stdout directed to a
    usable file, platform hooks that leave the output destinations alone and
    a child that started and touches no file on its own, the stdout reader
    is the file and reads as the content the file had before the call
    followed by what the child wrote. *)
Theorem Execute_appends_to_output_file (r : Run) (workingDir stdoutFilePath : string)
    (cancelFlag : CancelFlag) (executionTimeout : Z)
    (commandName : string) (commandArguments : list string) (w : World) :
  keepsStreams prepareProcess →
  keepsStreams validateEnvironmentVariables →
  stdoutFilePath ≠ "" →
  usable stdoutFilePath (files w) →
  startResult r = None →
  (∀ fs, childEffect r fs = fs) →
  ∃ code w',
    Execute r workingDir stdoutFilePath "" cancelFlag executionTimeout
      commandName commandArguments w
    = (Done (FileReader (Some stdoutFilePath), BytesReader (childStderr r), code,
             append_err [] (waitResult r)), w')
    ∧ (ReadAll (FileReader (Some stdoutFilePath)) w').1
      = Done (from_option data "" (node stdoutFilePath (files w)) +:+ childStdout r, None).
Proof.
  intros Hp Hv Hne Hu Hstart Hchild.
  destruct (Execute_file_run r workingDir stdoutFilePath cancelFlag executionTimeout
              commandName commandArguments w Hp Hv Hne Hu Hstart Hchild)
    as (code & w' & n & Heq & Hn & _ & _ & Hd).
  exists code, w'. split; [exact Heq|].
  cbn. rewrite Hn. cbn. rewrite Hd. reflexivity.
Qed.

(** X8: two Execute calls in a row with the same stdout file leave the
    output of both in the file, in call order, after what the file held
    before. *)
Theorem Execute_twice_appends_in_order (r1 r2 : Run) (workingDir stdoutFilePath : string)
    (cancelFlag1 cancelFlag2 : CancelFlag) (executionTimeout1 executionTimeout2 : Z)
    (commandName1 commandName2 : string) (commandArguments1 commandArguments2 : list string)
    (w : World) :
  keepsStreams prepareProcess →
  keepsStreams validateEnvironmentVariables →
  stdoutFilePath ≠ "" →
  usable stdoutFilePath (files w) →
  startResult r1 = None → (∀ fs, childEffect r1 fs = fs) →
  startResult r2 = None → (∀ fs, childEffect r2 fs = fs) →
  let w1 := (Execute r1 workingDir stdoutFilePath "" cancelFlag1 executionTimeout1
               commandName1 commandArguments1 w).2 in
  let w2 := (Execute r2 workingDir stdoutFilePath "" cancelFlag2 executionTimeout2
               commandName2 commandArguments2 w1).2 in
  data <$> node stdoutFilePath (files w2)
  = Some ((from_option data "" (node stdoutFilePath (files w)) +:+ childStdout r1)
          +:+ childStdout r2).
Proof.
  intros Hp Hv Hne Hu Hstart1 Hchild1 Hstart2 Hchild2 w1 w2. subst w1 w2.
  destruct (Execute_file_run r1 workingDir stdoutFilePath cancelFlag1 executionTimeout1
              commandName1 commandArguments1 w Hp Hv Hne Hu Hstart1 Hchild1)
    as (code1 & w1 & n1 & -> & Hn1 & Hr1 & Hw1 & Hd1).
  cbn [snd].
  assert (Hu1 : usable stdoutFilePath (files w1)).
  { apply (usable_node _ _ _ Hn1); assumption. }
  destruct (Execute_file_run r2 workingDir stdoutFilePath cancelFlag2 executionTimeout2
              commandName2 commandArguments2 w1 Hp Hv Hne Hu1 Hstart2 Hchild2)
    as (code2 & w2 & n2 & -> & Hn2 & _ & _ & Hd2).
  cbn [snd]. rewrite Hn2. cbn. rewrite Hd2, Hn1. cbn. rewrite Hd1. reflexivity.
Qed.

(** ** File handles *)

Lemma Close_run (path : string) (w : World) :
  Close (Some path) w = (Done tt, set_handles (remove_first path) w).
Proof. reflexivity. Qed.

Lemma Open_handles (path : string) (w : World) :
  Open path w = (Done (None, Some (PathError "open" path)), w)
  ∨ ∃ w1, Open path w = (Done (Some path, None), w1)
          ∧ handles w1 = path :: handles w.
Proof.
  unfold Open. destruct (node path (files w)) as [n|]; [|left; reflexivity].
  destruct (readable n); [right|left; reflexivity].
  eexists. split; reflexivity.
Qed.

Lemma remove_first_head (path : string) (l : list string) :
  remove_first path (path :: l) = l.
Proof. cbn. case_decide; [reflexivity|contradiction]. Qed.

Ltac run_handles :=
  repeat first
    [ rewrite bind_run | rewrite ret_run | rewrite defer_run
    | rewrite Exists_run | rewrite NewBuffer_run | rewrite Bytes_run | rewrite Close_run
    | rewrite node_empty
    | progress cbn beta iota zeta
    | progress cbn [files buffers handles started goroutines logged
                    set_files set_buffers set_handles set_started set_goroutines
                    set_logged fst snd]
    | case_decide; try contradiction; try (exfalso; congruence)
    | match goal with
      | |- context [OpenFile host ?p ?w] =>
          let Hh := fresh "Hh" in
          destruct (OpenFile_outcome p w) as [[-> _]|(? & -> & _ & _ & _ & Hh & _)]
      | |- context [StartCommand ?r ?c ?d ?o ?e ?n ?a ?w] =>
          let H := fresh in
          let Hh := fresh "Hh" in
          destruct (StartCommand_outcome r c d o e n a w) as (? & H & _ & _ & Hh);
          destruct (startResult r); destruct H as (-> & _ & _)
      | |- context [ExecuteCommand ?r ?c ?d ?o ?e ?t ?n ?a ?w] =>
          let Hh := fresh "Hh" in
          destruct (ExecuteCommand_outcome r c d o e t n a w) as (? & ? & -> & Hh & _)
      | |- context [Open ?p ?w] =>
          let Hh := fresh "Hh" in
          destruct (Open_handles p w) as [->|(? & -> & Hh)]
      | |- context [match node ?p (files ?w) with _ => _ end] =>
          destruct (node p (files w))
      | |- context [Bytes None ?w] => unfold Bytes, panic
      end ].

Ltac close_handles :=
  repeat first
    [ progress cbn [handles set_files set_buffers set_handles set_started
                    set_goroutines set_logged]
    | match goal with
      | H : handles ?x = _ |- context [handles ?x] => rewrite H
      end ];
  cbn [remove_first reader_handle app];
  repeat case_decide; simplify_eq; cbn [remove_first]; repeat case_decide;
  try congruence; try done.

(** X9: StartExe leaves no file handle open: on every path, also when an
    open fails or the launch fails, the agent's open handles after the call
    are those before it. *)
Theorem StartExe_closes_its_handles (r : Run)
    (workingDir stdoutFilePath stderrFilePath : string)
    (cancelFlag : CancelFlag) (commandName : string) (commandArguments : list string)
    (w : World) :
  handles (StartExe r workingDir stdoutFilePath stderrFilePath cancelFlag
             commandName commandArguments w).2
  = handles w.
Proof.
  unfold StartExe. run_handles; close_handles.
Qed.

(** X10: Execute closes the handles it opened for writing on every path.
    When it returns, the only handles it leaves open are those of the
    readers it hands back; when it panics, at most the stdout reader's. *)
Theorem Execute_closes_its_writers (r : Run)
    (workingDir stdoutFilePath stderrFilePath : string) (cancelFlag : CancelFlag)
    (executionTimeout : Z) (commandName : string) (commandArguments : list string)
    (w : World) :
  let '(res, w') := Execute r workingDir stdoutFilePath stderrFilePath cancelFlag
                      executionTimeout commandName commandArguments w in
  match res with
  | Done (stdout, stderr, _, _) =>
      handles w' = (reader_handle stderr ++ reader_handle stdout ++ handles w)%list
  | Panic _ =>
      handles w' = handles w ∨ handles w' = stdoutFilePath :: handles w
  end.
Proof.
  unfold Execute.
  destruct (decide (stdoutFilePath = "")) as [->|?];
    destruct (decide (stderrFilePath = "")) as [->|?]; run_handles.
  all: try (left; close_handles; fail).
  all: try (right; close_handles; fail).
  all: close_handles.
Qed.

(** X11: when an output file cannot be opened, StartExe reports nothing:
    it returns a nil process, exit code 0 and an empty error set, and starts
    neither a process nor an observer. *)
Theorem StartExe_sink_setup_failure (r : Run)
    (workingDir stdoutFilePath stderrFilePath : string)
    (cancelFlag : CancelFlag) (commandName : string) (commandArguments : list string)
    (w : World) :
  (stdoutFilePath ≠ ""
   ∧ (OpenFile host stdoutFilePath w).1 = Done (None, Some (PathError "open" stdoutFilePath)))
  ∨ (stderrFilePath ≠ ""
     ∧ (OpenFile host stderrFilePath w).1 = Done (None, Some (PathError "open" stderrFilePath))) →
  let '(res, w') := StartExe r workingDir stdoutFilePath stderrFilePath cancelFlag
                      commandName commandArguments w in
  res = Done (None, 0, [])
  ∧ started w' = started w
  ∧ goroutines w' = goroutines w.
Proof.
  intros Hfail. unfold StartExe. cbn beta iota zeta.
  destruct Hfail as [[Hne Hfail]|[Hne Hfail]].
  - case_decide; [|contradiction]. go_step.
    destruct (OpenFile_outcome stdoutFilePath w)
      as [[Heq ?]|(? & Heq & ?)]; rewrite Heq in *; cbn in *; [|discriminate].
    auto.
  - destruct (decide (stdoutFilePath ≠ "")) as [Hout|Hout].
    + go_step.
      destruct (OpenFile_outcome stdoutFilePath w)
        as [[-> ?]|(x & -> & _ & Hfiles & _ & _ & Hs & Hg & _ & Hopened)];
        go_step; [auto|].
      case_decide; [|contradiction]. go_step.
      rewrite (OpenFile_failure_persists stderrFilePath w x Hfail) by eauto.
      go_step. rewrite Close_run. cbn. split_and!; congruence.
    + case_decide; [|contradiction]. go_step.
      rewrite (OpenFile_failure_persists stderrFilePath w w Hfail) by (left; reflexivity).
      go_step. auto.
Qed.

(** ** CreateScriptFile *)

(** X12: CreateScriptFile always returns and leaves no file handle open.
    It returns nil exactly when the file could be created or truncated and
    the device took the whole script; when the file cannot be created the
    world is left as it was. *)
Theorem CreateScriptFile_outcome (scriptPath : string) (commands : list string)
    (w : World) :
  ∃ err w',
    CreateScriptFile scriptPath commands w = (Done err, w')
    ∧ handles w' = handles w
    ∧ (err = None ↔
       (Create host scriptPath w).1 = Done (Some scriptPath, None)
       ∧ (String.length (Join commands newline +:+ newline) ≤ room host)%nat)
    ∧ ((Create host scriptPath w).1 ≠ Done (Some scriptPath, None) → w' = w).
Proof.
  unfold CreateScriptFile, Create, WriteString, defer, Close, modify.
  unfold mbind, Go_bind, mret, Go_ret.
  destruct (node scriptPath (files w)) as [n|].
  - destruct (writable n && readable n); cbn.
    + case_decide; eexists _, _; (split; [reflexivity|]);
        cbn [handles set_handles set_files]; rewrite remove_first_head;
        (split; [reflexivity|]); cbn; (split; [|done]);
        split; try done; intros [_ ?]; lia.
    + eexists _, _. split_and!; try reflexivity; try done.
      split; [discriminate|intros [? _]; discriminate].
  - destruct (creatable host scriptPath && negb (bool_decide (scriptPath = ""))); cbn.
    + case_decide; eexists _, _; (split; [reflexivity|]);
        cbn [handles set_handles set_files]; rewrite remove_first_head;
        (split; [reflexivity|]); cbn; (split; [|done]);
        split; try done; intros [_ ?]; lia.
    + eexists _, _. split_and!; try reflexivity; try done.
      split; [discriminate|intros [? _]; discriminate].
Qed.

(** X13: for a command list that is not empty, a successful CreateScriptFile
    leaves a script in which every command, the last one included, is
    followed by exactly one line feed; whatever the file held before is
    gone. *)
Theorem script_commands_terminated (scriptPath : string) (commands : list string)
    (w w' : World) :
  commands ≠ [] →
  CreateScriptFile scriptPath commands w = (Done None, w') →
  data <$> (files w' !! scriptPath) = Some (terminated commands).
Proof.
  intros Hne. rewrite <- (Join_terminated commands Hne).
  unfold CreateScriptFile, Create, WriteString, defer, Close, modify.
  unfold mbind, Go_bind, mret, Go_ret.
  destruct (node scriptPath (files w)) as [n|] eqn:Hnode.
  - destruct (writable n && readable n); cbn.
    + case_decide; cbn; intros [= <-]; cbn.
      rewrite lookup_alter_eq, lookup_insert_eq. reflexivity.
    + intros [=].
  - destruct (creatable host scriptPath && negb (bool_decide (scriptPath = ""))); cbn.
    + case_decide; cbn; intros [= <-]; cbn.
      rewrite lookup_alter_eq, lookup_insert_eq. reflexivity.
    + intros [=].
Qed.

End Executers.

(** * The executer on concrete inputs *)

Lemma exit_minus_one_attribution_witness :
  startResult killedRun = None
  ∧ waitResult killedRun = Some (ExitError (Some (-1)))
  ∧ (ExecuteCommand stoppedPreemptively noHook noHook sampleHost killedRun
       (mkCancelFlag true) "/tmp" NilWriter NilWriter 10 "sleep" ["30"] emptyWorld).1
    = Done (stoppedPreemptively, Some (ExitError (Some (-1)))).
Proof.
  split; [reflexivity|]. split; [reflexivity|].
  exact (exit_minus_one_attribution stoppedPreemptively noHook noHook sampleHost killedRun
           (mkCancelFlag true) "/tmp" NilWriter NilWriter 10 "sleep" ["30"] emptyWorld (-1)
           eq_refl eq_refl eq_refl).
Defined.

(** C2 as stated fails: wait reports status -1, the interrupted flag is not
    set, the cancel flag is signaled, and the result is not the status but
    the preemptive-stop code. *)
Lemma exit_status_verbatim_counterexample :
  let status := -1 in
  waitResult killedRun = Some (ExitError (Some status))
  ∧ execInterruptedOnWindows killedRun = false
  ∧ (ExecuteCommand stoppedPreemptively noHook noHook sampleHost killedRun
       (mkCancelFlag true) "/tmp" NilWriter NilWriter 10 "sleep" ["30"] emptyWorld).1
    = Done (137, Some (ExitError (Some status)))
  ∧ 137 ≠ status.
Proof. cbv zeta. split_and!; [reflexivity..|discriminate]. Qed.

Lemma exit_status_normalized_then_attributed_witness :
  startResult failedRun = None
  ∧ waitResult failedRun = Some (ExitError (Some 3))
  ∧ (ExecuteCommand stoppedPreemptively noHook noHook sampleHost failedRun
       (mkCancelFlag false) "/tmp" NilWriter NilWriter 10 "false" [] emptyWorld).1
    = Done (3, Some (ExitError (Some 3))).
Proof.
  split; [reflexivity|]. split; [reflexivity|].
  exact (exit_status_normalized_then_attributed stoppedPreemptively noHook noHook
           sampleHost failedRun (mkCancelFlag false) "/tmp" NilWriter NilWriter 10
           "false" [] emptyWorld 3 eq_refl eq_refl).
Defined.

Lemma clean_exit_ignores_kill_attempts_witness :
  startResult cleanRun = None
  ∧ waitResult cleanRun = None
  ∧ ∃ out err,
      (Execute stoppedPreemptively noHook noHook sampleHost cleanRun "/tmp" "" ""
         (mkCancelFlag true) 1 "echo" ["ok"] emptyWorld).1
      = Done (BytesReader out, BytesReader err, 0, []).
Proof.
  split; [reflexivity|]. split; [reflexivity|].
  exact (proj2 (clean_exit_ignores_kill_attempts stoppedPreemptively noHook noHook
                  sampleHost cleanRun (mkCancelFlag true) "/tmp" NilWriter NilWriter 1
                  "echo" ["ok"] emptyWorld eq_refl eq_refl)).
Defined.

Lemma other_status_verbatim_witness :
  startResult failedRun = None
  ∧ waitResult failedRun = Some (ExitError (Some 3))
  ∧ execInterruptedOnWindows failedRun = false
  ∧ (ExecuteCommand stoppedPreemptively noHook noHook sampleHost failedRun
       (mkCancelFlag true) "/tmp" NilWriter NilWriter 10 "false" [] emptyWorld).1
    = Done (3, Some (ExitError (Some 3))).
Proof.
  split_and!; [reflexivity..|].
  apply (other_status_verbatim stoppedPreemptively noHook noHook sampleHost failedRun
           (mkCancelFlag true) "/tmp" NilWriter NilWriter 10 "false" [] emptyWorld 3);
    [reflexivity|reflexivity|discriminate|reflexivity].
Defined.

(** C5 as stated fails: the launch fails, stdout goes to a log file that an
    earlier run wrote to, and the stdout reader yields that earlier output
    rather than zero bytes. *)
Lemma launch_failure_readers_counterexample :
  let '(res, w') :=
    Execute stoppedPreemptively noHook noHook sampleHost launchFailure "/tmp" "out.log" ""
      (mkCancelFlag false) 10 "no-such-command" [] logWorld in
  startResult launchFailure = Some (StartError "executable file not found in $PATH")
  ∧ res = Done (FileReader (Some "out.log"), BytesReader "", 1,
                [StartError "executable file not found in $PATH"])
  ∧ (ReadAll (FileReader (Some "out.log")) w').1 = Done ("earlier output", None)
  ∧ "earlier output" ≠ "".
Proof. vm_compute. split_and!; [reflexivity..|discriminate]. Qed.

Lemma launch_failure_reported_witness :
  (∃ w1, ExecuteCommand stoppedPreemptively noHook noHook sampleHost launchFailure
           (mkCancelFlag false) "/tmp" NilWriter NilWriter 10 "no-such-command" []
           logWorld
         = (Done (1, Some (StartError "executable file not found in $PATH")), w1)
         ∧ started w1 = started logWorld ∧ goroutines w1 = goroutines logWorld)
  ∧ (∃ stdout stderr w',
       Execute stoppedPreemptively noHook noHook sampleHost launchFailure "/tmp"
         "out.log" "" (mkCancelFlag false) 10 "no-such-command" [] logWorld
       = (Done (stdout, stderr, 1, [StartError "executable file not found in $PATH"]), w')
       ∧ started w' = started logWorld ∧ goroutines w' = goroutines logWorld
       ∧ (ReadAll stdout w').1
         = Done (from_option data "" (node "out.log" (files logWorld)), None)
       ∧ (ReadAll stderr w').1
         = Done (from_option data "" (node "" (files logWorld)), None)).
Proof.
  apply (launch_failure_reported stoppedPreemptively noHook noHook sampleHost
           launchFailure "/tmp" "out.log" "" (mkCancelFlag false) NilWriter NilWriter 10
           "no-such-command" [] logWorld (StartError "executable file not found in $PATH")).
  - reflexivity.
  - intros _. vm_compute. split; reflexivity.
  - intros H. exfalso. apply H. reflexivity.
Defined.

Lemma Execute_sink_setup_failure_witness :
  let '(res, w') :=
    Execute stoppedPreemptively noHook noHook readOnlyHost cleanRun "/tmp"
      "/var/log/out.log" "" (mkCancelFlag false) 10 "echo" ["ok"] emptyWorld in
  res = Done (NilReader, NilReader, 0, [])
  ∧ started w' = started emptyWorld
  ∧ goroutines w' = goroutines emptyWorld.
Proof.
  apply (Execute_sink_setup_failure stoppedPreemptively noHook noHook readOnlyHost
           cleanRun "/tmp" "/var/log/out.log" "" (mkCancelFlag false) 10 "echo" ["ok"]
           emptyWorld).
  left. split; [discriminate|reflexivity].
Defined.

Lemma Execute_missing_output_file_panics_witness :
  (Execute stoppedPreemptively noHook noHook sampleHost removingRun "/tmp" "out.log" ""
     (mkCancelFlag false) 10 "rm" ["out.log"] emptyWorld).1
  = Panic "invalid memory address or nil pointer dereference".
Proof.
  apply (Execute_missing_output_file_panics stoppedPreemptively noHook noHook sampleHost
           removingRun "/tmp" "out.log" (mkCancelFlag false) 10 "rm" ["out.log"]
           emptyWorld).
  - discriminate.
  - reflexivity.
  - reflexivity.
  - intros fs. apply lookup_delete_eq.
Defined.

(** StartExe with both output paths given: the files are created, the
    process is started, and its Stdout and Stderr are the nil handle. *)
Example StartExe_sample_run :
  let '(res, w') :=
    StartExe noHook noHook sampleHost cleanRun "/tmp" "out.log" "err.log"
      (mkCancelFlag false) "echo" ["ok"] emptyWorld in
  res = Done (Some (mkProcess 4242), 0, [])
  ∧ (Stdout <$> head (started w')) = Some (FileWriter None)
  ∧ (Stderr <$> head (started w')) = Some (FileWriter None)
  ∧ (data <$> files w' !! "out.log") = Some ""
  ∧ length (goroutines w') = 1%nat.
Proof. vm_compute. split_and!; reflexivity. Qed.

(** prepareEnvironment on a host whose region lookup fails. *)
Example prepareEnvironment_sample :
  Env (prepareEnvironment noHook sampleHost (Command "echo" ["ok"]))
  = ["PATH=/usr/bin"; "AWS_SSM_INSTANCE_ID=i-0123456789"].
Proof. reflexivity. Qed.


Lemma script_file_content_witness :
  let w' := (CreateScriptFile sampleHost "install.sh" ["echo a"; "echo b"] emptyWorld).2 in
  data <$> (files w' !! "install.sh")
  = Some "echo a
echo b
"
  ∧ (["echo a"; "echo b"] = [] →
     data <$> (files w' !! "install.sh") = Some (String "010"%char ""))
  ∧ (["echo a"; "echo b"] ≠ [] →
     data <$> (files w' !! "install.sh")
     = Some (foldr (λ c rest, c +:+ String "010"%char "" +:+ rest) ""
               ["echo a"; "echo b"])).
Proof.
  exact (script_file_content sampleHost "install.sh" ["echo a"; "echo b"] emptyWorld
           (CreateScriptFile sampleHost "install.sh" ["echo a"; "echo b"] emptyWorld).2
           eq_refl).
Defined.

(** The script of an empty command list is one byte long. *)
Example empty_script_length :
  String.length <$> (data <$> (files (CreateScriptFile sampleHost "empty.sh" [] emptyWorld).2
                                 !! "empty.sh"))
  = Some 1%nat.
Proof. vm_compute. reflexivity. Qed.

(** An empty command list gives a script that is a single line feed. *)
Example empty_script_file :
  CreateScriptFile sampleHost "empty.sh" [] emptyWorld
  = (Done None, mkWorld {[ "empty.sh" := mkFileNode newline true true ]} ∅ [] [] [] []).
Proof. vm_compute. reflexivity. Qed.

(** ** Further properties on concrete inputs *)

Lemma noHook_keepsStreams : keepsStreams noHook.
Proof. intros c. split; reflexivity. Qed.

Lemma wait_error_without_status_gives_one_witness :
  (ExecuteCommand stoppedPreemptively noHook noHook sampleHost copyErrorRun
     (mkCancelFlag true) "/tmp" NilWriter NilWriter 10 "cat" [] emptyWorld).1
  = Done (1, Some (OtherError "read |0: file already closed")).
Proof.
  apply wait_error_without_status_gives_one; [reflexivity|reflexivity|discriminate].
Defined.

Lemma no_observer_no_substitution_witness :
  (ExecuteCommand stoppedPreemptively noHook noHook sampleHost killedRun
     (mkCancelFlag false) "/tmp" NilWriter NilWriter 10 "sleep" ["30"] emptyWorld).1
  = Done (if execInterruptedOnWindows killedRun then -1 else -1,
          Some (ExitError (Some (-1)))).
Proof.
  apply no_observer_no_substitution; reflexivity.
Defined.

Lemma timeout_observer_duration_exact_witness :
  let w' := (ExecuteCommand stoppedPreemptively noHook noHook sampleHost cleanRun
               (mkCancelFlag false) "/tmp" NilWriter NilWriter 3600 "echo" ["ok"]
               emptyWorld).2 in
  ∃ command,
    started w' = command :: started emptyWorld
    ∧ goroutines w' = killProcessOnTimeout command (3600 * 1000000000)
                      :: killProcessOnCancel command :: goroutines emptyWorld.
Proof.
  apply timeout_observer_duration_exact; [reflexivity|lia].
Defined.

Lemma timeout_observer_duration_wraps_witness :
  let w' := (ExecuteCommand stoppedPreemptively noHook noHook sampleHost cleanRun
               (mkCancelFlag false) "/tmp" NilWriter NilWriter 9223372037 "echo" ["ok"]
               emptyWorld).2 in
  ∃ command duration,
    goroutines w' = killProcessOnTimeout command duration
                    :: killProcessOnCancel command :: goroutines emptyWorld
    ∧ duration = 9223372037 * 1000000000 - 2 ^ 64
    ∧ (duration < 0)%Z.
Proof.
  apply timeout_observer_duration_wraps; [reflexivity|lia].
Defined.

Lemma Execute_memory_output_preserved_witness :
  ∃ code w',
    Execute stoppedPreemptively noHook noHook sampleHost killedRun "/tmp" "" ""
      (mkCancelFlag true) 10 "sleep" ["30"] emptyWorld
    = (Done (BytesReader (childStdout killedRun), BytesReader (childStderr killedRun),
             code, append_err [] (waitResult killedRun)), w')
    ∧ ∀ stdoutWriter stderrWriter w0,
        (ExecuteCommand stoppedPreemptively noHook noHook sampleHost killedRun
           (mkCancelFlag true) "/tmp" stdoutWriter stderrWriter 10 "sleep" ["30"] w0).1
        = Done (code, waitResult killedRun).
Proof.
  apply Execute_memory_output_preserved;
    [exact noHook_keepsStreams|exact noHook_keepsStreams|reflexivity].
Defined.

Lemma Execute_appends_to_output_file_witness :
  ∃ code w',
    Execute stoppedPreemptively noHook noHook sampleHost cleanRun "/tmp" "out.log" ""
      (mkCancelFlag false) 10 "echo" ["ok"] logWorld
    = (Done (FileReader (Some "out.log"), BytesReader (childStderr cleanRun), code,
             append_err [] (waitResult cleanRun)), w')
    ∧ (ReadAll (FileReader (Some "out.log")) w').1
      = Done (from_option data "" (node "out.log" (files logWorld))
              +:+ childStdout cleanRun, None).
Proof.
  apply Execute_appends_to_output_file;
    [exact noHook_keepsStreams|exact noHook_keepsStreams|discriminate
    |vm_compute; split; reflexivity|reflexivity|reflexivity].
Defined.

Lemma Execute_twice_appends_in_order_witness :
  let w1 := (Execute stoppedPreemptively noHook noHook sampleHost cleanRun "/tmp"
               "out.log" "" (mkCancelFlag false) 10 "echo" ["ok"] logWorld).2 in
  let w2 := (Execute stoppedPreemptively noHook noHook sampleHost killedRun "/tmp"
               "out.log" "" (mkCancelFlag true) 10 "sleep" ["30"] w1).2 in
  data <$> node "out.log" (files w2)
  = Some ((from_option data "" (node "out.log" (files logWorld)) +:+ childStdout cleanRun)
          +:+ childStdout killedRun).
Proof.
  apply Execute_twice_appends_in_order;
    [exact noHook_keepsStreams|exact noHook_keepsStreams|discriminate
    |vm_compute; split; reflexivity|reflexivity|reflexivity|reflexivity|reflexivity].
Defined.

Lemma StartExe_sink_setup_failure_witness :
  let '(res, w') :=
    StartExe noHook noHook readOnlyHost cleanRun "/tmp" "/var/log/out.log" ""
      (mkCancelFlag false) "echo" ["ok"] emptyWorld in
  res = Done (None, 0, [])
  ∧ started w' = started emptyWorld
  ∧ goroutines w' = goroutines emptyWorld.
Proof.
  apply (StartExe_sink_setup_failure noHook noHook readOnlyHost cleanRun "/tmp"
           "/var/log/out.log" "" (mkCancelFlag false) "echo" ["ok"] emptyWorld).
  left. split; [discriminate|reflexivity].
Defined.

Lemma script_commands_terminated_witness :
  data <$> (files (CreateScriptFile sampleHost "install.sh" ["echo a"; "echo b"]
                     emptyWorld).2 !! "install.sh")
  = Some (terminated ["echo a"; "echo b"]).
Proof.
  apply (script_commands_terminated sampleHost "install.sh" ["echo a"; "echo b"]
           emptyWorld); [discriminate|reflexivity].
Defined.

Lemma ExecuteCommand_nil_error_iff_clean_witness :
  (ExecuteCommand stoppedPreemptively noHook noHook sampleHost cleanRun
     (mkCancelFlag true) "/tmp" NilWriter NilWriter 1 "echo" ["ok"] emptyWorld).1
  = Done (0, None)
  ∧ ((@None error = None ↔ startResult cleanRun = None ∧ waitResult cleanRun = None)
     ∧ (@None error = None → 0 = 0)).
Proof.
  split; [reflexivity|].
  exact (ExecuteCommand_nil_error_iff_clean stoppedPreemptively noHook noHook sampleHost
           cleanRun (mkCancelFlag true) "/tmp" NilWriter NilWriter 1 "echo" ["ok"]
           emptyWorld 0 None eq_refl).
Defined.
